(** * Grünbeck Cloud coordinator: a shallow embedding of
      [custom_components/gruenbeck_cloud/coordinator.py]

    The coordinator is glue between Home Assistant's update framework and the
    vendor client [PyGruenbeckCloud].  The client is an external collaborator,
    so it appears here as an interface ([Client]); every coordinator method is
    a computation in a state-and-exception monad over a [world] that holds the
    coordinator's attributes, the client, the part of the host the code talks
    to (the shutdown listeners on the bus, the background tasks) and a
    chronological trace of what was called. *)

From Stdlib Require Import ZArith String List Bool Lia.
From stdpp Require Import base decidable option list strings gmap.

Set Warnings "-register-all".

Local Open Scope string_scope.
Local Open Scope list_scope.

(** ** Exceptions *)

(** The exception classes the module names or can meet.  The builtin part is
    Python's; [HomeAssistantError] and [UpdateFailed] are the host's
    ([UpdateFailed] derives from [HomeAssistantError]); the
    [PyGruenbeckCloud...] classes are declared by the vendor library
    [pygruenbeck_cloud.exceptions], where each specific error derives from
    [PyGruenbeckCloudError] (the order of the [except] clauses in [listen]
    relies on it). *)
Inductive exn_class : Type :=
  | BaseException
  | CancelledError
  | Exception
  | RuntimeError
  | TypeError
  | AttributeError
  | LookupError
  | IndexError
  | KeyError
  | HomeAssistantError
  | UpdateFailed
  | PyGruenbeckCloudError
  | PyGruenbeckCloudConnectionClosedError
  | PyGruenbeckCloudResponseStatusError
  | PyGruenbeckCloudUpdateParameterError.

#[global] Instance exn_class_eq_dec : EqDecision exn_class.
Proof. solve_decision. Defined.

(** The direct base class. *)
Definition base_class (c : exn_class) : option exn_class :=
  match c with
  | BaseException => None
  | CancelledError => Some BaseException
  | Exception => Some BaseException
  | RuntimeError => Some Exception
  | TypeError => Some Exception
  | AttributeError => Some Exception
  | LookupError => Some Exception
  | IndexError => Some LookupError
  | KeyError => Some LookupError
  | HomeAssistantError => Some Exception
  | UpdateFailed => Some HomeAssistantError
  | PyGruenbeckCloudError => Some Exception
  | PyGruenbeckCloudConnectionClosedError => Some PyGruenbeckCloudError
  | PyGruenbeckCloudResponseStatusError => Some PyGruenbeckCloudError
  | PyGruenbeckCloudUpdateParameterError => Some PyGruenbeckCloudError
  end.

(** The class and its bases, nearest first (the hierarchy is at most four
    deep, so [mro] below walks it whole). *)
Fixpoint bases_upto (fuel : nat) (c : exn_class) : list exn_class :=
  c :: match fuel with
       | O => []
       | S n => match base_class c with
                | Some b => bases_upto n b
                | None => []
                end
       end.

Definition mro (c : exn_class) : list exn_class := bases_upto 4 c.

Definition issubclass (c d : exn_class) : bool := bool_decide (d ∈ mro c).

(** An exception object: its class, what [str(err)] gives, and the
    [__cause__] set by [raise ... from err]. *)
Inductive exn : Type :=
  | Exn (cls : exn_class) (msg : string) (cause : option exn).

Definition exn_cls (e : exn) : exn_class := let 'Exn c _ _ := e in c.
Definition str (e : exn) : string := let 'Exn _ m _ := e in m.
Definition exn_cause (e : exn) : option exn := let 'Exn _ _ c := e in c.

Definition isinstance (e : exn) (c : exn_class) : bool := issubclass (exn_cls e) c.

(** [except (c1, c2, ...)]: the clause matches an instance of any listed class. *)
Definition matches (classes : list exn_class) (e : exn) : bool :=
  existsb (isinstance e) classes.
Arguments matches : simpl never.

(** The outcome of a call: a value, or a raised exception. *)
Inductive result (A : Type) : Type :=
  | Ok (a : A)
  | Raise (e : exn).
Arguments Ok {A} a.
Arguments Raise {A} e.

(** ** Data model *)

(** The values that cross the service boundary (service data, responses). *)
Inductive pyval : Type :=
  | PNone
  | PStr (s : string)
  | PInt (z : Z)
  | PList (l : list pyval)
  | PDict (kv : list (pyval * pyval)).

(** One entry of a historical measurement series. *)
Record DailyUsageEntry : Type := { date : string; value : Z }.

(** The vendor's realtime-info value, opaque to this module. *)
Record DeviceRealtimeInfo : Type := { realtime_fields : list (string * pyval) }.

(** A coroutine object: what calling an [async def] gives before anyone
    awaits it.  None of its body has run. *)
Inductive coroutine : Type :=
  | CoListen
  | CoRefreshSd.

(** What the [realtime] attribute of a [Device] can hold at run time. *)
Inductive realtime_slot : Type :=
  | RtInfo (info : DeviceRealtimeInfo)
  | RtAwaitable (co : coroutine).

Record Device : Type := {
  dev_id : string;
  realtime : option realtime_slot;
  salt : option (list DailyUsageEntry);
  water : option (list DailyUsageEntry);
  parameters : list (string * pyval)
}.

Definition set_realtime (r : option realtime_slot) (d : Device) : Device :=
  {| dev_id := dev_id d; realtime := r; salt := salt d; water := water d;
     parameters := parameters d |}.

(** [ServiceCall]: only [call.data] is read. *)
Record ServiceCall : Type := { call_data : gmap string pyval }.

(** ** The request of the manual telemetry fetch *)

Record request_template : Type := {
  tpl_scheme : string;
  tpl_host : string;
  tpl_port : Z;
  tpl_use_cookies : bool;
  tpl_headers : list (string * string);
  tpl_path : string;
  tpl_method : string;
  tpl_data : pyval;
  tpl_query_params : list (string * string)
}.

Record URL : Type := {
  url_scheme : string;
  url_host : string;
  url_port : Z;
  url_path : string;
  url_query : list (string * string)
}.

Record http_request : Type := {
  req_url : URL;
  req_headers : list (string * string);
  req_method : string;
  req_data : pyval;
  req_expected_status_codes : list Z;
  req_use_cookies : bool
}.

(** The [URL] class the module imports from [httpcore], whose source is
    not here.  The module uses one attribute of the class, [URL.build]: the
    class may have it or not, and a [build] that is there may return a URL
    or raise. *)
Class UrlClass : Type := {
  URL_build :
    option (string -> string -> Z -> string -> list (string * string)
            -> result URL)
}.

(** ** The vendor client *)

(** A method of the client that was called. *)
Inductive api_call : Type :=
  | CallConnect
  | CallDisconnect
  | CallListen
  | CallSetDeviceFromId (device_id : string)
  | CallGetDeviceInfos
  | CallGetDeviceInfosParameters
  | CallGetDeviceSaltMeasurements
  | CallGetDeviceWaterMeasurements
  | CallRegenerate
  | CallUpdateDeviceInfosParameters (data : list (pyval * pyval))
  | CallEnterSd
  | CallGetWebAccessToken
  | CallHttpRequest (req : http_request).

(** [PyGruenbeckCloud] as the coordinator sees it.  [C] is the client's own
    state; a method maps it to an outcome and a new state.  [api_listen] runs
    until the connection ends: it hands the devices it received, in order, to
    the callback and then returns or raises. *)
Class Client (C : Type) : Type := {
  api_device : C -> option Device;
  api_connected : C -> bool;
  api_connect : C -> result unit * C;
  api_disconnect : C -> result unit * C;
  api_listen : C -> list Device * result unit * C;
  api_set_device_from_id : string -> C -> result unit * C;
  api_get_device_infos : C -> result unit * C;
  api_get_device_infos_parameters : C -> result Device * C;
  api_get_device_salt_measurements : C -> result Device * C;
  api_get_device_water_measurements : C -> result Device * C;
  api_regenerate : C -> result unit * C;
  api_update_device_infos_parameters : list (pyval * pyval) -> C -> result Device * C;
  api_enter_sd : C -> result unit * C;
  api__get_web_access_token : C -> result string * C;
  api__placeholder_to_values_dict :
    list (string * string) -> list (string * string) -> list (string * string);
  api__placeholder_to_values_str : string -> list (string * string) -> string;
  api__http_request : http_request -> C -> result pyval * C;
  DeviceRealtimeInfo_from_dict : pyval -> result DeviceRealtimeInfo;
  (** [WEB_REQUESTS["refresh_sd"]] and the placeholder names of
      [pygruenbeck_cloud.const]. *)
  WEB_REQUESTS_refresh_sd : request_template;
  PARAM_NAME_DEVICE_ID : string;
  PARAM_NAME_ACCESS_TOKEN : string
}.

(** ** The world *)

(** A remove-listener handle returned by [hass.bus.async_listen_once]. *)
Definition handle : Type := nat.

Inductive event : Type :=
  | EvApi (c : api_call)              (* a client method was awaited *)
  | EvLogDebug (m : string)           (* self.logger.debug *)
  | EvLogDebugDevice (d : option Device)
  | EvLogError (m : string)           (* self.logger.error *)
  | EvUpdateListeners                 (* self.async_update_listeners() *)
  | EvListenOnce (h : handle)         (* hass.bus.async_listen_once(STOP, close_websocket) *)
  | EvUnsubCalled (h : handle)        (* self.unsub() *)
  | EvBackgroundTask (name : string) (co : coroutine).

Record world (C : Type) : Type := {
  api : C;                            (* self.api *)
  data : option Device;               (* self.data *)
  last_update_success : bool;         (* self.last_update_success *)
  unsub : option handle;              (* self.unsub *)
  _device_id : string;                (* self._device_id *)
  name : string;                      (* self.name *)
  stop_listeners : list handle;       (* listeners of EVENT_HOMEASSISTANT_STOP *)
  next_handle : handle;
  background_tasks : list (string * coroutine);
  trace : list event
}.
Arguments api {C} w.
Arguments data {C} w.
Arguments last_update_success {C} w.
Arguments unsub {C} w.
Arguments _device_id {C} w.
Arguments name {C} w.
Arguments stop_listeners {C} w.
Arguments next_handle {C} w.
Arguments background_tasks {C} w.
Arguments trace {C} w.

(** ** The monad of coordinator code *)

(** A computation runs in a world and ends with a value or a raised
    exception; what it did to the world before raising stays done. *)
Definition M (C A : Type) : Type := world C -> result A * world C.

Definition ret {C A : Type} (a : A) : M C A := fun w => (Ok a, w).

Definition raise {C A : Type} (e : exn) : M C A := fun w => (Raise e, w).

Definition bind {C A B : Type} (m : M C A) (k : A -> M C B) : M C B :=
  fun w =>
    match m w with
    | (Ok a, w') => k a w'
    | (Raise e, w') => (Raise e, w')
    end.

Notation "x <- m ;; k" := (bind m (fun x => k))
  (at level 100, m at next level, right associativity).
Notation "m ;; k" := (bind m (fun _ => k))
  (at level 100, right associativity).

(** The first [except] clause that matches the exception, if any. *)
Fixpoint find_handler {H : Type} (clauses : list (list exn_class * H)) (e : exn)
  : option H :=
  match clauses with
  | [] => None
  | (classes, h) :: rest =>
      if matches classes e then Some h else find_handler rest e
  end.

(** [try: body / except classes as err: handler / ...]: an exception of the
    body goes to the first matching clause, and on if none matches. *)
Definition try_except {C A : Type} (body : M C A)
    (clauses : list (list exn_class * (exn -> M C A))) : M C A :=
  fun w =>
    match body w with
    | (Ok a, w') => (Ok a, w')
    | (Raise e, w') =>
        match find_handler clauses e with
        | Some h => h e w'
        | None => (Raise e, w')
        end
    end.

(** *** Reading and writing the world *)

Definition with_api {C : Type} (a : C) (w : world C) : world C :=
  {| api := a; data := data w; last_update_success := last_update_success w;
     unsub := unsub w; _device_id := _device_id w; name := name w;
     stop_listeners := stop_listeners w; next_handle := next_handle w;
     background_tasks := background_tasks w; trace := trace w |}.

Definition with_data {C : Type} (d : option Device) (w : world C) : world C :=
  {| api := api w; data := d; last_update_success := last_update_success w;
     unsub := unsub w; _device_id := _device_id w; name := name w;
     stop_listeners := stop_listeners w; next_handle := next_handle w;
     background_tasks := background_tasks w; trace := trace w |}.

Definition with_last_update_success {C : Type} (b : bool) (w : world C) : world C :=
  {| api := api w; data := data w; last_update_success := b;
     unsub := unsub w; _device_id := _device_id w; name := name w;
     stop_listeners := stop_listeners w; next_handle := next_handle w;
     background_tasks := background_tasks w; trace := trace w |}.

Definition with_unsub {C : Type} (u : option handle) (w : world C) : world C :=
  {| api := api w; data := data w; last_update_success := last_update_success w;
     unsub := u; _device_id := _device_id w; name := name w;
     stop_listeners := stop_listeners w; next_handle := next_handle w;
     background_tasks := background_tasks w; trace := trace w |}.

Definition with_stop_listeners {C : Type} (l : list handle) (w : world C) : world C :=
  {| api := api w; data := data w; last_update_success := last_update_success w;
     unsub := unsub w; _device_id := _device_id w; name := name w;
     stop_listeners := l; next_handle := next_handle w;
     background_tasks := background_tasks w; trace := trace w |}.

Definition with_next_handle {C : Type} (h : handle) (w : world C) : world C :=
  {| api := api w; data := data w; last_update_success := last_update_success w;
     unsub := unsub w; _device_id := _device_id w; name := name w;
     stop_listeners := stop_listeners w; next_handle := h;
     background_tasks := background_tasks w; trace := trace w |}.

Definition with_background_tasks {C : Type} (t : list (string * coroutine))
    (w : world C) : world C :=
  {| api := api w; data := data w; last_update_success := last_update_success w;
     unsub := unsub w; _device_id := _device_id w; name := name w;
     stop_listeners := stop_listeners w; next_handle := next_handle w;
     background_tasks := t; trace := trace w |}.

Definition with_trace {C : Type} (t : list event) (w : world C) : world C :=
  {| api := api w; data := data w; last_update_success := last_update_success w;
     unsub := unsub w; _device_id := _device_id w; name := name w;
     stop_listeners := stop_listeners w; next_handle := next_handle w;
     background_tasks := background_tasks w; trace := t |}.

(** Appends an event to the trace. *)
Definition emit {C : Type} (ev : event) : M C unit :=
  fun w => (Ok tt, with_trace (trace w ++ [ev]) w).

Definition gets {C A : Type} (f : world C -> A) : M C A := fun w => (Ok (f w), w).

Definition modify {C : Type} (f : world C -> world C) : M C unit :=
  fun w => (Ok tt, f w).

(** [await self.api.<method>(...)]: the call is recorded, the client moves
    to its new state, and the outcome is the call's. *)
Definition await_api {C R : Type} (c : api_call) (method : C -> result R * C)
  : M C R :=
  fun w =>
    let '(r, a) := method (api w) in
    (r, with_trace (trace w ++ [EvApi c]) (with_api a w)).

(** Lifts an outcome that does not touch the world. *)
Definition lift_result {C A : Type} (r : result A) : M C A := fun w => (r, w).

(** ** Constants of the integration *)

(** Modelled from the spec: [const.py] of the integration is not among the
    sources; the spec documents the two input keys of change-setting as
    [parameter] and [value]. *)
Definition SERVICE_PARAM_PARAMETER : string := "parameter".
Definition SERVICE_PARAM_VALUE : string := "value".

(** [aiohttp.http.HTTPStatus.ACCEPTED] and [.OK]. *)
Definition HTTPStatus_ACCEPTED : Z := 202.
Definition HTTPStatus_OK : Z := 200.

(** ** The coordinator *)

Section Coordinator.
Context {C : Type} `{!Client C}.

(** *** The host's side *)

Definition logger_debug (m : string) : M C unit := emit (EvLogDebug m).

(** [self.logger.error(err)] logs [str(err)]. *)
Definition logger_error (err : exn) : M C unit := emit (EvLogError (str err)).

Definition async_update_listeners : M C unit := emit EvUpdateListeners.

(** [hass.bus.async_listen_once(EVENT_HOMEASSISTANT_STOP, close_websocket)]:
    the bus gains a listener and the caller gets the handle that removes it. *)
Definition async_listen_once : M C handle :=
  fun w =>
    let h := next_handle w in
    (Ok h,
     with_trace (trace w ++ [EvListenOnce h])
       (with_next_handle (S h)
          (with_stop_listeners (stop_listeners w ++ [h]) w))).

(** Calling such a handle removes the listener if it is still there (the
    host logs and goes on when it is not). *)
Definition call_unsub (h : handle) : M C unit :=
  fun w =>
    (Ok tt,
     with_trace (trace w ++ [EvUnsubCalled h])
       (with_stop_listeners
          (filter (fun h' => h' ≠ h) (stop_listeners w)) w)).

Definition async_create_background_task (co : coroutine) (task_name : string)
  : M C unit :=
  fun w =>
    (Ok tt,
     with_trace (trace w ++ [EvBackgroundTask task_name co])
       (with_background_tasks (background_tasks w ++ [(task_name, co)]) w)).

(** *** [GruenbeckCloudCoordinator] *)

Definition disconnect : M C unit := await_api CallDisconnect api_disconnect.

Definition async_set_updated_data (d : Device) : M C unit :=
  modify (with_data (Some d)) ;;
  modify (with_last_update_success true) ;;
  n <- gets name ;;
  logger_debug ("Manually updated " +:+ n +:+ " data") ;;
  async_update_listeners.

(** [await self.api.listen(callback=...)]: the client calls the callback
    once per device it receives, then the call ends. *)
Definition await_api_listen (callback : Device -> M C unit) : M C unit :=
  fun w =>
    let '(pushed, r, a) := api_listen (api w) in
    let w1 := with_trace (trace w ++ [EvApi CallListen]) (with_api a w) in
    (r, foldl (fun w' d => snd (callback d w')) w1 pushed).

(** [if self.unsub: self.unsub(); self.unsub = None] *)
Definition release_unsub : M C unit :=
  u <- gets unsub ;;
  match u with
  | Some h => call_unsub h ;; modify (with_unsub None)
  | None => ret tt
  end.

(** The first [try] of [listen]: [true] when [connect] returned, [false]
    when the handler ran ([listen] returns there). *)
Definition listen_connect : M C bool :=
  try_except
    (await_api CallConnect api_connect ;; ret true)
    [ ([PyGruenbeckCloudError; PyGruenbeckCloudResponseStatusError],
       fun err => logger_error err ;; release_unsub ;; ret false) ].

(** The second [try] of [listen]. *)
Definition listen_loop : M C unit :=
  try_except
    (await_api_listen async_set_updated_data)
    [ ([PyGruenbeckCloudConnectionClosedError;
        PyGruenbeckCloudResponseStatusError],
       fun err =>
         modify (with_last_update_success false) ;;
         logger_error err);
      ([PyGruenbeckCloudError],
       fun err =>
         modify (with_last_update_success false) ;;
         async_update_listeners ;;
         logger_error err) ].

(** The end of [listen], after the second [try]: disconnect, then drop
    the handle. *)
Definition listen_exit : M C unit :=
  await_api CallDisconnect api_disconnect ;;
  release_unsub.

Definition listen : M C unit :=
  connected <- listen_connect ;;
  if (connected : bool) then
    (listen_loop ;;
     listen_exit)
  else ret tt.

Definition close_websocket : M C unit :=
  modify (with_unsub None) ;;
  await_api CallDisconnect api_disconnect.

Definition _listen_websocket : M C unit :=
  h <- async_listen_once ;;
  modify (with_unsub (Some h)) ;;
  async_create_background_task CoListen "gruenbeck-cloud-listen".

Definition service_get_device_salt_measurements (call : ServiceCall)
  : M C pyval :=
  device <- await_api CallGetDeviceSaltMeasurements
              api_get_device_salt_measurements ;;
  match salt device with
  | None => ret (PDict [(PStr "entries", PList [])])
  | Some series =>
      ret (PDict
             [(PStr "entries",
               PList (map (fun item =>
                             PDict [(PStr "date", PStr (date item));
                                    (PStr "value", PInt (value item))])
                        series))])
  end.

Definition service_get_device_water_measurements (call : ServiceCall)
  : M C pyval :=
  device <- await_api CallGetDeviceWaterMeasurements
              api_get_device_water_measurements ;;
  match water device with
  | None => ret (PDict [(PStr "entries", PList [])])
  | Some series =>
      ret (PDict
             [(PStr "entries",
               PList (map (fun item =>
                             PDict [(PStr "date", PStr (date item));
                                    (PStr "value", PInt (value item))])
                        series))])
  end.

Definition service_regenerate (call : ServiceCall) : M C unit :=
  await_api CallRegenerate api_regenerate.

Definition update_device_infos_parameters (data : list (pyval * pyval))
  : M C unit :=
  try_except
    (d <- await_api (CallUpdateDeviceInfosParameters data)
            (api_update_device_infos_parameters data) ;;
     modify (with_data (Some d)))
    [ ([PyGruenbeckCloudUpdateParameterError],
       fun err => raise (Exn HomeAssistantError (str err) (Some err))) ].

(** [call.data[key]] *)
Definition getitem (d : gmap string pyval) (key : string) : M C pyval :=
  match d !! key with
  | Some v => ret v
  | None => raise (Exn KeyError ("'" +:+ key +:+ "'") None)
  end.

(** The dict display [{k: v}]; a list or a dict cannot be a key. *)
Definition dict_display (k v : pyval) : M C (list (pyval * pyval)) :=
  match k with
  | PList _ => raise (Exn TypeError "unhashable type: 'list'" None)
  | PDict _ => raise (Exn TypeError "unhashable type: 'dict'" None)
  | _ => ret [(k, v)]
  end.

Definition service_change_settings (call : ServiceCall) : M C unit :=
  k <- getitem (call_data call) SERVICE_PARAM_PARAMETER ;;
  v <- getitem (call_data call) SERVICE_PARAM_VALUE ;;
  data <- dict_display k v ;;
  update_device_infos_parameters data.

(** [URL.build(scheme=..., host=..., port=..., path=..., query=...)]: the
    attribute is looked up on the class, and called if it is there. *)
Definition call_URL_build {U : UrlClass} (scheme host : string) (port : Z)
    (path : string) (query : list (string * string)) : M C URL :=
  match URL_build with
  | Some build => lift_result (build scheme host port path query)
  | None =>
      raise (Exn AttributeError
               "type object 'URL' has no attribute 'build'" None)
  end.

Definition refresh_sd {U : UrlClass} : M C DeviceRealtimeInfo :=
  token <- await_api CallGetWebAccessToken api__get_web_access_token ;;
  let scheme := tpl_scheme WEB_REQUESTS_refresh_sd in
  let host := tpl_host WEB_REQUESTS_refresh_sd in
  let port := tpl_port WEB_REQUESTS_refresh_sd in
  let use_cookies := tpl_use_cookies WEB_REQUESTS_refresh_sd in
  let headers :=
    api__placeholder_to_values_dict (tpl_headers WEB_REQUESTS_refresh_sd)
      [(PARAM_NAME_ACCESS_TOKEN, token)] in
  device_id <- gets _device_id ;;
  let path :=
    api__placeholder_to_values_str (tpl_path WEB_REQUESTS_refresh_sd)
      [(PARAM_NAME_DEVICE_ID, device_id)] in
  let method := tpl_method WEB_REQUESTS_refresh_sd in
  let data := tpl_data WEB_REQUESTS_refresh_sd in
  let query := tpl_query_params WEB_REQUESTS_refresh_sd in
  url <- call_URL_build scheme host port path query ;;
  let req :=
    {| req_url := url; req_headers := headers; req_method := method;
       req_data := data;
       req_expected_status_codes := [HTTPStatus_ACCEPTED; HTTPStatus_OK];
       req_use_cookies := use_cookies |} in
  response <- await_api (CallHttpRequest req) (api__http_request req) ;;
  lift_result (DeviceRealtimeInfo_from_dict response).

(** The body of the [try] in [_async_update_data], first half: bind the
    device if the client has none, then fetch infos and parameters. *)
Definition fetch_device : M C Device :=
  dev <- gets (fun w => api_device (api w)) ;;
  (if negb (bool_decide (is_Some dev)) then
     device_id <- gets _device_id ;;
     await_api (CallSetDeviceFromId device_id)
       (api_set_device_from_id device_id)
   else ret tt) ;;
  await_api CallGetDeviceInfos api_get_device_infos ;;
  await_api CallGetDeviceInfosParameters api_get_device_infos_parameters.

(** The whole body of the [try].  [self.refresh_sd()] is called and not
    awaited: what is stored in [device.realtime] is the coroutine object,
    and nothing of [refresh_sd] runs.  Devices are values here: if the
    client hands out the very object it keeps as [self.api.device], the
    assignment shows through that reference too, which only the content of
    the last debug line could tell. *)
Definition poll_body : M C Device :=
  device <- fetch_device ;;
  connected <- gets (fun w => api_connected (api w)) ;;
  u <- gets unsub ;;
  device <-
    (if negb connected && negb (bool_decide (is_Some u)) then
       _listen_websocket ;;
       ret device
     else
       await_api CallEnterSd api_enter_sd ;;
       ret (set_realtime (Some (RtAwaitable CoRefreshSd)) device)) ;;
  logger_debug "=== real time data ===" ;;
  d <- gets (fun w => api_device (api w)) ;;
  emit (EvLogDebugDevice d) ;;
  ret device.

Definition _async_update_data : M C Device :=
  n <- gets name ;;
  logger_debug ("Regularly updated " +:+ n +:+ " data") ;;
  try_except poll_body
    [ ([Exception; IndexError; KeyError; PyGruenbeckCloudResponseStatusError],
       fun err =>
         raise (Exn UpdateFailed
                  ("Unable to get data from API: " +:+ str err)
                  (Some err))) ].

(** What a coroutine object does once it runs as a task. *)
Definition run_task {U : UrlClass} (co : coroutine) : M C unit :=
  match co with
  | CoListen => listen
  | CoRefreshSd => refresh_sd ;; ret tt
  end.

(** The world in which the [try] of [_async_update_data] starts: the
    first debug line is logged. *)
Definition poll_started (w : world C) : world C :=
  with_trace
    (trace w ++ [EvLogDebug ("Regularly updated " +:+ name w +:+ " data")]) w.

(** The world in which the guard [not self.api.connected and not
    self.unsub] is evaluated, with the device fetched, when the poll gets
    that far. *)
Definition at_push_guard (w : world C) : option (Device * world C) :=
  match fetch_device (poll_started w) with
  | (Ok device, w1) => Some (device, w1)
  | (Raise _, _) => None
  end.

(** Push mode as the guard sees it. *)
Definition push_active (w1 : world C) : bool :=
  api_connected (api w1) || bool_decide (is_Some (unsub w1)).

(** The world after [await self.api.enter_sd()] ended in client state [a]. *)
Definition entered_sd (a : C) (w1 : world C) : world C :=
  with_trace (trace w1 ++ [EvApi CallEnterSd]) (with_api a w1).

(** The world after the two debug lines that end the [try]. *)
Definition poll_logged (w2 : world C) : world C :=
  with_trace
    (trace w2 ++ [EvLogDebug "=== real time data ===";
                  EvLogDebugDevice (api_device (api w2))]) w2.

(** What the [except] clause of [_async_update_data] makes of an exception. *)
Definition update_failed (e : exn) : exn :=
  if matches [Exception; IndexError; KeyError;
              PyGruenbeckCloudResponseStatusError] e
  then Exn UpdateFailed ("Unable to get data from API: " +:+ str e) (Some e)
  else e.

(** The devices pushed during [listen], applied in order. *)
Definition apply_pushes (pushed : list Device) (w : world C) : world C :=
  foldl (fun w' d => snd (async_set_updated_data d w')) w pushed.

(** The world after [await self.api.connect()] returned in client state [a]. *)
Definition connected_world (a : C) (w : world C) : world C :=
  with_trace (trace w ++ [EvApi CallConnect]) (with_api a w).

(** The world when [await self.api.listen(...)] ends in client state [a],
    having pushed [pushed]. *)
Definition listened_world (pushed : list Device) (a : C) (w1 : world C)
  : world C :=
  apply_pushes pushed (with_trace (trace w1 ++ [EvApi CallListen]) (with_api a w1)).

(** The world after the handler of a closed-connection or status error. *)
Definition closed_handled (e : exn) (w2 : world C) : world C :=
  with_trace (trace w2 ++ [EvLogError (str e)])
    (with_last_update_success false w2).

(** The world after the handler of any other vendor error. *)
Definition generic_handled (e : exn) (w2 : world C) : world C :=
  with_trace (trace w2 ++ [EvUpdateListeners; EvLogError (str e)])
    (with_last_update_success false w2).

(** The host fires [EVENT_HOMEASSISTANT_STOP]: the one-shot listeners leave
    the bus and each runs; what a listener raises is the host's to log. *)
Definition fire_homeassistant_stop (w : world C) : world C :=
  foldl (fun w' _ => snd (close_websocket w'))
    (with_stop_listeners [] w) (stop_listeners w).

End Coordinator.

(** ** Reading traces and responses *)

(** What was appended to the trace between two worlds. *)
Definition events_since {C : Type} (w w' : world C) : list event :=
  drop (length (trace w)) (trace w').

(** The number of [async_update_listeners] calls in a trace. *)
Fixpoint notifications (tr : list event) : nat :=
  match tr with
  | [] => 0
  | EvUpdateListeners :: rest => S (notifications rest)
  | _ :: rest => notifications rest
  end.

(** The client calls of a trace, in order. *)
Fixpoint api_calls (tr : list event) : list api_call :=
  match tr with
  | [] => []
  | EvApi c :: rest => c :: api_calls rest
  | _ :: rest => api_calls rest
  end.

(** The events that are log lines. *)
Definition is_log (ev : event) : bool :=
  match ev with
  | EvLogDebug _ | EvLogDebugDevice _ | EvLogError _ => true
  | _ => false
  end.

(** The two events of one [async_set_updated_data]. *)
Definition push_events (n : string) (pushed : list Device) : list event :=
  flat_map (fun _ => [EvLogDebug ("Manually updated " +:+ n +:+ " data");
                      EvUpdateListeners]) pushed.

(** [d[key]] on a response dict, for string keys. *)
Fixpoint pydict_get (key : string) (kv : list (pyval * pyval)) : option pyval :=
  match kv with
  | [] => None
  | (PStr k, v) :: rest => if String.eqb k key then Some v else pydict_get key rest
  | _ :: rest => pydict_get key rest
  end.

(** Reads a [{"date": ..., "value": ...}] item back. *)
Definition entry_pair (v : pyval) : option (string * Z) :=
  match v with
  | PDict kv =>
      match pydict_get "date" kv, pydict_get "value" kv with
      | Some (PStr d), Some (PInt x) => Some (d, x)
      | _, _ => None
      end
  | _ => None
  end.

(** Reads the [(date, value)] pairs of a measurement response back. *)
Definition response_entries (resp : pyval) : option (list (option (string * Z))) :=
  match resp with
  | PDict kv =>
      match pydict_get "entries" kv with
      | Some (PList items) => Some (map entry_pair items)
      | _ => None
      end
  | _ => None
  end.

(** A vendor error that is neither a closed connection nor a bad status. *)
Definition generic_vendor_error (e : exn) : bool :=
  isinstance e PyGruenbeckCloudError
  && negb (isinstance e PyGruenbeckCloudConnectionClosedError)
  && negb (isinstance e PyGruenbeckCloudResponseStatusError).

Definition closed_or_status_error (e : exn) : bool :=
  isinstance e PyGruenbeckCloudConnectionClosedError
  || isinstance e PyGruenbeckCloudResponseStatusError.

(** [contains s t]: [t] occurs in [s]. *)
Definition contains (s t : string) : Prop :=
  exists pre post : string, s = pre +:+ t +:+ post.

(** The two measurement services differ only in the client method they call
    and the series they read. *)
Inductive series_kind : Type := Salt | Water.

Definition series_of (k : series_kind) (d : Device)
  : option (list DailyUsageEntry) :=
  match k with Salt => salt d | Water => water d end.

Definition fetch_series_of {C : Type} `{!Client C} (k : series_kind)
  : C -> result Device * C :=
  match k with
  | Salt => api_get_device_salt_measurements
  | Water => api_get_device_water_measurements
  end.

Definition service_of {C : Type} `{!Client C} (k : series_kind)
  : ServiceCall -> M C pyval :=
  match k with
  | Salt => service_get_device_salt_measurements
  | Water => service_get_device_water_measurements
  end.

(** A service call with the two keys of change-setting. *)
Definition change_call (p : string) (v : pyval) : ServiceCall :=
  {| call_data := {[ SERVICE_PARAM_PARAMETER := PStr p;
                     SERVICE_PARAM_VALUE := v ]} |}.

(** ** Runs of the coordinator

    What the host can make the coordinator do, one thing after another:
    poll, run the listen task, fire the shutdown event, call a service.
    Each runs to its end before the next starts; the interleaving of tasks
    at their [await]s is not part of this model. *)
Inductive op : Type :=
  | OpPoll
  | OpListenTask
  | OpShutdown
  | OpSaltMeasurements (call : ServiceCall)
  | OpWaterMeasurements (call : ServiceCall)
  | OpRegenerate (call : ServiceCall)
  | OpChangeSettings (call : ServiceCall)
  | OpUpdateParameters (data : list (pyval * pyval)).

Definition run_op {C : Type} `{!Client C} (o : op) (w : world C) : world C :=
  match o with
  | OpPoll => snd (_async_update_data w)
  | OpListenTask => snd (listen w)
  | OpShutdown => fire_homeassistant_stop w
  | OpSaltMeasurements call => snd (service_get_device_salt_measurements call w)
  | OpWaterMeasurements call => snd (service_get_device_water_measurements call w)
  | OpRegenerate call => snd (service_regenerate call w)
  | OpChangeSettings call => snd (service_change_settings call w)
  | OpUpdateParameters data => snd (update_device_infos_parameters data w)
  end.

Definition run_ops {C : Type} `{!Client C} (ops : list op) (w : world C)
  : world C :=
  foldl (fun w' o => run_op o w') w ops.

(** The bus holds the listener the handle stands for, and no other. *)
Definition registration_matches_handle {C : Type} (w : world C) : Prop :=
  stop_listeners w = match unsub w with
                     | Some h => [h]
                     | None => []
                     end.

(** ** A scripted client

    An instance of [Client] whose outcomes are fixed in advance, the way a
    test double is: the theorems below hold for every client, and are
    exercised on this one. *)

Record scripted : Type := {
  s_device : option Device;
  s_connected : bool;
  s_connect : result unit;
  s_disconnect : result unit;
  s_pushed : list Device;
  s_listen : result unit;
  s_infos : result unit;
  s_parameters : result Device;
  s_measurements : result Device;
  s_update : result Device;
  s_enter_sd : result unit
}.

Definition s_with_connected (b : bool) (s : scripted) : scripted :=
  {| s_device := s_device s; s_connected := b; s_connect := s_connect s;
     s_disconnect := s_disconnect s; s_pushed := s_pushed s;
     s_listen := s_listen s; s_infos := s_infos s;
     s_parameters := s_parameters s; s_measurements := s_measurements s;
     s_update := s_update s; s_enter_sd := s_enter_sd s |}.

Definition s_with_device (d : option Device) (s : scripted) : scripted :=
  {| s_device := d; s_connected := s_connected s; s_connect := s_connect s;
     s_disconnect := s_disconnect s; s_pushed := s_pushed s;
     s_listen := s_listen s; s_infos := s_infos s;
     s_parameters := s_parameters s; s_measurements := s_measurements s;
     s_update := s_update s; s_enter_sd := s_enter_sd s |}.

Definition is_ok {A : Type} (r : result A) : bool :=
  match r with Ok _ => true | Raise _ => false end.

Definition sample_device : Device :=
  {| dev_id := "softliQ.D/BS00000001";
     realtime := None;
     salt := Some [ {| date := "2024-05-01"; value := 12 |};
                    {| date := "2024-05-02"; value := 0 |};
                    {| date := "2024-05-03"; value := 7 |} ];
     water := None;
     parameters := [("pmode", PInt 1)] |}.

Definition pushed_device : Device :=
  {| dev_id := "softliQ.D/BS00000001";
     realtime := Some (RtInfo {| realtime_fields := [("mflow1", PInt 3)] |});
     salt := None;
     water := None;
     parameters := [] |}.

#[global] Instance scripted_client : Client scripted := {|
  api_device := s_device;
  api_connected := s_connected;
  api_connect s :=
    (s_connect s, if is_ok (s_connect s) then s_with_connected true s else s);
  api_disconnect s := (s_disconnect s, s_with_connected false s);
  api_listen s := (s_pushed s, s_listen s, s);
  api_set_device_from_id device_id s :=
    (Ok tt, s_with_device (Some sample_device) s);
  api_get_device_infos s := (s_infos s, s);
  api_get_device_infos_parameters s := (s_parameters s, s);
  api_get_device_salt_measurements s := (s_measurements s, s);
  api_get_device_water_measurements s := (s_measurements s, s);
  api_regenerate s := (Ok tt, s);
  api_update_device_infos_parameters data s := (s_update s, s);
  api_enter_sd s := (s_enter_sd s, s);
  api__get_web_access_token s := (Ok "token", s);
  api__placeholder_to_values_dict headers values := headers;
  api__placeholder_to_values_str path values := path;
  api__http_request req s := (Ok (PDict []), s);
  DeviceRealtimeInfo_from_dict resp := Ok {| realtime_fields := [] |};
  WEB_REQUESTS_refresh_sd :=
    {| tpl_scheme := "https"; tpl_host := "example.invalid"; tpl_port := 443;
       tpl_use_cookies := false; tpl_headers := []; tpl_path := "/";
       tpl_method := "POST"; tpl_data := PNone; tpl_query_params := [] |};
  PARAM_NAME_DEVICE_ID := "device_id";
  PARAM_NAME_ACCESS_TOKEN := "access_token"
|}.

(** A client for which every call succeeds and nothing is pushed. *)
Definition quiet_client : scripted :=
  {| s_device := None; s_connected := false; s_connect := Ok tt;
     s_disconnect := Ok tt; s_pushed := []; s_listen := Ok tt;
     s_infos := Ok tt; s_parameters := Ok sample_device;
     s_measurements := Ok sample_device; s_update := Ok pushed_device;
     s_enter_sd := Ok tt |}.

(** The coordinator as [__init__] leaves it. *)
Definition init_world {C : Type} (a : C) : world C :=
  {| api := a; data := None; last_update_success := true; unsub := None;
     _device_id := "softliQ.D/BS00000001"; name := "gruenbeck_cloud";
     stop_listeners := []; next_handle := 0; background_tasks := [];
     trace := [] |}.

Definition vendor_error (c : exn_class) (m : string) : exn := Exn c m None.

(** The client rejects the parameter update as invalid. *)
Definition invalid_parameter_client : scripted :=
  {| s_device := None; s_connected := false; s_connect := Ok tt;
     s_disconnect := Ok tt; s_pushed := []; s_listen := Ok tt;
     s_infos := Ok tt; s_parameters := Ok sample_device;
     s_measurements := Ok sample_device;
     s_update :=
       Raise (vendor_error PyGruenbeckCloudUpdateParameterError
                "Unable to update parameter pbuzzer");
     s_enter_sd := Ok tt |}.

(** The parameter update fails with a status error. *)
Definition bad_status_client : scripted :=
  {| s_device := None; s_connected := false; s_connect := Ok tt;
     s_disconnect := Ok tt; s_pushed := []; s_listen := Ok tt;
     s_infos := Ok tt; s_parameters := Ok sample_device;
     s_measurements := Ok sample_device;
     s_update :=
       Raise (vendor_error PyGruenbeckCloudResponseStatusError
                "Response status error");
     s_enter_sd := Ok tt |}.

(** The infos request fails on a missing key of the response. *)
Definition missing_key_client : scripted :=
  {| s_device := None; s_connected := false; s_connect := Ok tt;
     s_disconnect := Ok tt; s_pushed := []; s_listen := Ok tt;
     s_infos := Raise (Exn KeyError "'softener'" None);
     s_parameters := Ok sample_device;
     s_measurements := Ok sample_device; s_update := Ok pushed_device;
     s_enter_sd := Ok tt |}.

(** The socket delivers one device and then fails with a generic vendor
    error. *)
Definition dropping_client : scripted :=
  {| s_device := Some sample_device; s_connected := false; s_connect := Ok tt;
     s_disconnect := Ok tt; s_pushed := [pushed_device];
     s_listen := Raise (vendor_error PyGruenbeckCloudError "socket gone");
     s_infos := Ok tt; s_parameters := Ok sample_device;
     s_measurements := Ok sample_device; s_update := Ok pushed_device;
     s_enter_sd := Ok tt |}.

(** The disconnect itself fails. *)
Definition failing_disconnect_client : scripted :=
  {| s_device := Some sample_device; s_connected := false; s_connect := Ok tt;
     s_disconnect := Raise (vendor_error PyGruenbeckCloudError "close failed");
     s_pushed := []; s_listen := Ok tt;
     s_infos := Ok tt; s_parameters := Ok sample_device;
     s_measurements := Ok sample_device; s_update := Ok pushed_device;
     s_enter_sd := Ok tt |}.

(** The connection is refused. *)
Definition refused_client : scripted :=
  {| s_device := Some sample_device; s_connected := false;
     s_connect := Raise (vendor_error PyGruenbeckCloudError "connection refused");
     s_disconnect := Ok tt; s_pushed := []; s_listen := Ok tt;
     s_infos := Ok tt; s_parameters := Ok sample_device;
     s_measurements := Ok sample_device; s_update := Ok pushed_device;
     s_enter_sd := Ok tt |}.

(** The listen call pushes two devices and then dies of an error that is
    not the vendor's. *)
Definition crashing_client : scripted :=
  {| s_device := Some sample_device; s_connected := false; s_connect := Ok tt;
     s_disconnect := Ok tt; s_pushed := [sample_device; pushed_device];
     s_listen := Raise (Exn RuntimeError "Session is closed" None);
     s_infos := Ok tt; s_parameters := Ok sample_device;
     s_measurements := Ok sample_device; s_update := Ok pushed_device;
     s_enter_sd := Ok tt |}.


(** A service call without the "value" key. *)
Definition call_without_value : ServiceCall :=
  {| call_data := {[ SERVICE_PARAM_PARAMETER := PStr "pbuzzer" ]} |}.

(** A [URL] class whose [build] assembles the URL from its parts. *)
Definition building_url : UrlClass :=
  {| URL_build :=
       Some (fun scheme host port path query =>
               Ok {| url_scheme := scheme; url_host := host; url_port := port;
                     url_path := path; url_query := query |}) |}.

(** A [URL] class that has no [build]. *)
Definition plain_url : UrlClass := {| URL_build := None |}.

(** The coordinator after its first poll: push-setup has run. *)
Definition polled_once : world scripted :=
  snd (_async_update_data (init_world quiet_client)).

(** A coordinator that holds a snapshot, over a client whose parameter
    update fails. *)
Definition polled_once_bad_status : world scripted :=
  with_data (Some sample_device) (init_world bad_status_client).

(** ** Properties *)

(** *** Basic facts *)

Lemma notifications_app (l k : list event) :
  notifications (l ++ k) = notifications l + notifications k.
Proof.
  induction l as [|ev l IH]; simpl; [reflexivity|].
  destruct ev; simpl; rewrite IH; reflexivity.
Qed.

Lemma api_calls_app (l k : list event) :
  api_calls (l ++ k) = api_calls l ++ api_calls k.
Proof.
  induction l as [|ev l IH]; simpl; [reflexivity|].
  destruct ev; simpl; rewrite IH; reflexivity.
Qed.

Lemma events_since_app {C : Type} (w w' : world C) (delta : list event) :
  trace w' = trace w ++ delta -> events_since w w' = delta.
Proof. unfold events_since. intros ->. apply drop_app_length. Qed.

Lemma isinstance_Exception_of_vendor (e : exn) :
  isinstance e PyGruenbeckCloudError = true -> isinstance e Exception = true.
Proof. destruct e as [c m k]. destruct c; vm_compute; congruence. Qed.

Lemma closed_or_status_is_vendor (e : exn) :
  closed_or_status_error e = true -> isinstance e PyGruenbeckCloudError = true.
Proof. destruct e as [c m k]. destruct c; vm_compute; congruence. Qed.

Lemma generic_vendor_not_closed_or_status (e : exn) :
  generic_vendor_error e = true -> closed_or_status_error e = false.
Proof. destruct e as [c m k]. destruct c; vm_compute; congruence. Qed.

Lemma append_empty_r (s : string) : s +:+ "" = s.
Proof.
  induction s as [|c s IH]; [reflexivity|].
  change (String c (s +:+ "") = String c s). f_equal. exact IH.
Qed.

Lemma contains_refl (s : string) : contains s s.
Proof. exists "", "". simpl. symmetry. apply append_empty_r. Qed.

Lemma contains_suffix (pre s : string) : contains (pre +:+ s) s.
Proof. exists pre, "". rewrite append_empty_r. reflexivity. Qed.

(** Unfolds the monad and the coordinator's small steps. *)
Ltac run_m :=
  unfold logger_debug, logger_error, async_update_listeners,
    async_listen_once, call_unsub, async_create_background_task,
    bind, ret, raise, try_except, await_api, gets, modify, emit, lift_result
    in *;
  simpl in *.

(** Two worlds are equal when their fields are. *)
Lemma world_ext {C : Type} (w w' : world C) :
  api w = api w' ->
  data w = data w' ->
  last_update_success w = last_update_success w' ->
  unsub w = unsub w' ->
  _device_id w = _device_id w' ->
  name w = name w' ->
  stop_listeners w = stop_listeners w' ->
  next_handle w = next_handle w' ->
  background_tasks w = background_tasks w' ->
  trace w = trace w' ->
  w = w'.
Proof.
  destruct w, w'. simpl. intros. subst. reflexivity.
Qed.

(** Worlds written with the setters are compared field by field; traces
    are compared up to the bracketing of [++]. *)
Ltac world_eq :=
  apply world_ext; simpl; rewrite <- ?app_assoc; reflexivity.

(** *** The service handlers *)

Section Services.
Context {C : Type} `{!Client C}.

Lemma response_entries_of_series (series : list DailyUsageEntry) :
  response_entries
    (PDict [(PStr "entries",
             PList (map (fun item =>
                           PDict [(PStr "date", PStr (date item));
                                  (PStr "value", PInt (value item))])
                      series))])
  = Some (map (fun item => Some (date item, value item)) series).
Proof.
  simpl. f_equal.
  induction series as [|item series IH]; simpl; [reflexivity|].
  f_equal. exact IH.
Qed.

(** C3.  When the client returns a device, the salt (water) handler returns
    [{"entries": []}] if the series is [None], and otherwise a dict with
    the single key "entries" whose items, read back, are the (date, value)
    pairs of the series in the series' order; it does not raise. *)
Theorem measurements_response (k : series_kind) (call : ServiceCall)
    (w : world C) (device : Device) (a : C) :
  fetch_series_of k (api w) = (Ok device, a) ->
  match series_of k device with
  | None =>
      fst (service_of k call w) = Ok (PDict [(PStr "entries", PList [])])
  | Some series =>
      exists items : list pyval,
        fst (service_of k call w) = Ok (PDict [(PStr "entries", PList items)])
        /\ length items = length series
        /\ response_entries (PDict [(PStr "entries", PList items)])
           = Some (map (fun item => Some (date item, value item)) series)
  end.
Proof.
  intros Hfetch.
  destruct k; simpl in *;
    unfold service_get_device_salt_measurements,
      service_get_device_water_measurements; run_m; rewrite Hfetch; simpl.
  - destruct (salt device) as [series|]; simpl; [|reflexivity].
    eexists; split; [reflexivity|]. split; [apply length_map|].
    apply response_entries_of_series.
  - destruct (water device) as [series|]; simpl; [|reflexivity].
    eexists; split; [reflexivity|]. split; [apply length_map|].
    apply response_entries_of_series.
Qed.

(** A call that carries a string under "parameter" and a value under
    "value" reaches [update_device_infos_parameters] with the one-key dict. *)
Lemma change_settings_forward (call : ServiceCall) (p : string) (v : pyval)
    (w : world C) :
  call_data call !! SERVICE_PARAM_PARAMETER = Some (PStr p) ->
  call_data call !! SERVICE_PARAM_VALUE = Some v ->
  service_change_settings call w
  = update_device_infos_parameters [(PStr p, v)] w.
Proof.
  intros Hp Hv. unfold service_change_settings, getitem, dict_display.
  unfold bind at 1. rewrite Hp. unfold ret at 1.
  unfold bind at 1. rewrite Hv. unfold ret at 1.
  reflexivity.
Qed.

(** C4.  change-setting with inputs (p, v) is update-parameters with
    [{p: v}]: the two computations give the same outcome and the same
    world (client state, coordinator attributes and trace of calls). *)
Theorem change_setting_is_update_parameters (call : ServiceCall)
    (p : string) (v : pyval) (w : world C) :
  call_data call !! SERVICE_PARAM_PARAMETER = Some (PStr p) ->
  call_data call !! SERVICE_PARAM_VALUE = Some v ->
  service_change_settings call w
  = update_device_infos_parameters [(PStr p, v)] w.
Proof. apply change_settings_forward. Qed.

Lemma update_parameters_raise (data0 : list (pyval * pyval)) (w : world C)
    (e : exn) (a : C) :
  api_update_device_infos_parameters data0 (api w) = (Raise e, a) ->
  update_device_infos_parameters data0 w
  = (Raise (if isinstance e PyGruenbeckCloudUpdateParameterError
            then Exn HomeAssistantError (str e) (Some e) else e),
     with_trace (trace w ++ [EvApi (CallUpdateDeviceInfosParameters data0)])
       (with_api a w)).
Proof.
  intros Hcall. unfold update_device_infos_parameters. run_m.
  rewrite Hcall. simpl. unfold matches. simpl.
  rewrite orb_false_r.
  destruct (isinstance e PyGruenbeckCloudUpdateParameterError); reflexivity.
Qed.

Lemma update_parameters_return (data0 : list (pyval * pyval)) (w : world C)
    (d : Device) (a : C) :
  api_update_device_infos_parameters data0 (api w) = (Ok d, a) ->
  update_device_infos_parameters data0 w
  = (Ok tt,
     with_data (Some d)
       (with_trace (trace w ++ [EvApi (CallUpdateDeviceInfosParameters data0)])
          (with_api a w))).
Proof.
  intros Hcall. unfold update_device_infos_parameters. run_m.
  rewrite Hcall. reflexivity.
Qed.

(** C5.  When the client's parameter update raises the vendor's
    invalid-parameter error, update-parameters raises a
    [HomeAssistantError] whose message is (so contains) the vendor
    error's message, chained to it. *)
Theorem update_parameters_wraps_invalid_parameter
    (data0 : list (pyval * pyval)) (w : world C) (e : exn) (a : C) :
  api_update_device_infos_parameters data0 (api w) = (Raise e, a) ->
  isinstance e PyGruenbeckCloudUpdateParameterError = true ->
  exists err : exn,
    fst (update_device_infos_parameters data0 w) = Raise err
    /\ exn_cls err = HomeAssistantError
    /\ str err = str e
    /\ contains (str err) (str e)
    /\ exn_cause err = Some e.
Proof.
  intros Hcall Hinst. rewrite (update_parameters_raise _ _ _ _ Hcall), Hinst.
  eexists. split; [reflexivity|]. simpl.
  repeat split; try reflexivity. apply contains_refl.
Qed.

(** C10.  When the client's parameter update raises, the stored snapshot is
    what it was, through update-parameters and through change-setting; the
    invalid-parameter error comes out wrapped in a [HomeAssistantError],
    every other exception comes out as it is. *)
Theorem update_parameters_atomic (data0 : list (pyval * pyval)) (w : world C)
    (e : exn) (a : C) :
  api_update_device_infos_parameters data0 (api w) = (Raise e, a) ->
  data (snd (update_device_infos_parameters data0 w)) = data w
  /\ (isinstance e PyGruenbeckCloudUpdateParameterError = true ->
      fst (update_device_infos_parameters data0 w)
      = Raise (Exn HomeAssistantError (str e) (Some e)))
  /\ (isinstance e PyGruenbeckCloudUpdateParameterError = false ->
      fst (update_device_infos_parameters data0 w) = Raise e)
  /\ (forall (p : string) (v : pyval),
        data0 = [(PStr p, v)] ->
        data (snd (service_change_settings (change_call p v) w)) = data w
        /\ fst (service_change_settings (change_call p v) w)
           = fst (update_device_infos_parameters data0 w)).
Proof.
  intros Hcall.
  rewrite (update_parameters_raise _ _ _ _ Hcall). simpl.
  split; [reflexivity|].
  split; [intros ->; reflexivity|].
  split; [intros ->; reflexivity|].
  intros p v ->.
  assert (Hfw : service_change_settings (change_call p v) w
                = update_device_infos_parameters [(PStr p, v)] w).
  { apply change_settings_forward; reflexivity. }
  rewrite Hfw, (update_parameters_raise _ _ _ _ Hcall). simpl.
  split; reflexivity.
Qed.

End Services.

(** *** The poll *)

Section Poll.
Context {C : Type} `{!Client C}.

(** The fetch only talks to the client: the world it leaves differs in the
    client's state and in the calls recorded, which are a prefix of the
    three calls of the source. *)
Lemma fetch_device_spec (w : world C) :
  exists (a : C) (calls : list api_call),
    snd (fetch_device w) = with_trace (trace w ++ map EvApi calls) (with_api a w)
    /\ (calls `prefix_of` [CallSetDeviceFromId (_device_id w);
                           CallGetDeviceInfos; CallGetDeviceInfosParameters]
        \/ calls `prefix_of` [CallGetDeviceInfos; CallGetDeviceInfosParameters]).
Proof.
  unfold fetch_device. run_m.
  destruct (api_device (api w)) as [dev|] eqn:Hdev; simpl.
  - destruct (api_get_device_infos (api w)) as [[[]|e1] a1] eqn:H1; simpl.
    + destruct (api_get_device_infos_parameters a1) as [[d|e2] a2] eqn:H2; simpl;
        exists a2, [CallGetDeviceInfos; CallGetDeviceInfosParameters];
        rewrite <- app_assoc; split; try reflexivity; right; reflexivity.
    + exists a1, [CallGetDeviceInfos]. split; [reflexivity|].
      right. exists [CallGetDeviceInfosParameters]. reflexivity.
  - destruct (api_set_device_from_id (_device_id w) (api w))
      as [[[]|e0] a0] eqn:H0; simpl.
    + destruct (api_get_device_infos a0) as [[[]|e1] a1] eqn:H1; simpl.
      * destruct (api_get_device_infos_parameters a1) as [[d|e2] a2] eqn:H2;
          simpl;
          exists a2, [CallSetDeviceFromId (_device_id w); CallGetDeviceInfos;
                      CallGetDeviceInfosParameters];
          rewrite <- !app_assoc; split; try reflexivity; left; reflexivity.
      * exists a1, [CallSetDeviceFromId (_device_id w); CallGetDeviceInfos].
        rewrite <- !app_assoc. split; [reflexivity|].
        left. exists [CallGetDeviceInfosParameters]. reflexivity.
    + exists a0, [CallSetDeviceFromId (_device_id w)]. split; [reflexivity|].
      left. exists [CallGetDeviceInfos; CallGetDeviceInfosParameters].
      reflexivity.
Qed.

(** The poll, case by case: the fetch fails; the guard sends it to
    push-setup; or it enters streaming-data mode, which succeeds or fails. *)
Lemma poll_cases (w : world C) :
  match fetch_device (poll_started w) with
  | (Raise e, w1) => _async_update_data w = (Raise (update_failed e), w1)
  | (Ok device, w1) =>
      if push_active w1 then
        match api_enter_sd (api w1) with
        | (Ok _, a) =>
            _async_update_data w
            = (Ok (set_realtime (Some (RtAwaitable CoRefreshSd)) device),
               poll_logged (entered_sd a w1))
        | (Raise e, a) =>
            _async_update_data w = (Raise (update_failed e), entered_sd a w1)
        end
      else
        _async_update_data w
        = (Ok device, poll_logged (snd (_listen_websocket w1)))
  end.
Proof.
  destruct (fetch_device (poll_started w)) as [[device|e] w1] eqn:Hf;
    unfold poll_started in Hf.
  - unfold push_active.
    destruct (api_connected (api w1)) eqn:Hc; simpl.
    + destruct (api_enter_sd (api w1)) as [[[]|e] a] eqn:Hsd;
        unfold _async_update_data, poll_body, update_failed, poll_logged,
          entered_sd; run_m; rewrite Hf; simpl; rewrite Hc; simpl;
        rewrite Hsd; simpl;
        [f_equal; world_eq | destruct (matches _ e); reflexivity].
    + destruct (unsub w1) as [h|] eqn:Hu; simpl.
      * destruct (api_enter_sd (api w1)) as [[[]|e] a] eqn:Hsd;
          unfold _async_update_data, poll_body, update_failed, poll_logged,
            entered_sd; run_m; rewrite Hf; simpl; rewrite Hc, Hu; simpl;
          rewrite Hsd; simpl;
        [f_equal; world_eq | destruct (matches _ e); reflexivity].
      * unfold _async_update_data, poll_body, poll_logged, _listen_websocket.
        run_m. rewrite Hf. simpl. rewrite Hc, Hu. simpl. f_equal. world_eq.
  - unfold _async_update_data, poll_body, update_failed. run_m.
    rewrite Hf. simpl. destruct (matches _ e); reflexivity.
Qed.


Lemma api_calls_map_EvApi (calls : list api_call) :
  api_calls (map EvApi calls) = calls.
Proof. induction calls as [|c calls IH]; simpl; [|rewrite IH]; reflexivity. Qed.

(** The calls of a fetch are among the three of the source, each at most
    once, and [enter_sd] is not one of them. *)
Lemma fetch_calls_facts (device_id : string) (calls : list api_call) :
  calls `prefix_of` [CallSetDeviceFromId device_id; CallGetDeviceInfos;
                     CallGetDeviceInfosParameters]
  \/ calls `prefix_of` [CallGetDeviceInfos; CallGetDeviceInfosParameters] ->
  NoDup (calls ++ [CallEnterSd])
  /\ NoDup calls
  /\ forall c : api_call, c ∈ calls ->
       c = CallSetDeviceFromId device_id \/ c = CallGetDeviceInfos
       \/ c = CallGetDeviceInfosParameters.
Proof.
  intros [[k Hk]|[k Hk]];
    destruct calls as [|c1 [|c2 [|c3 [|c4 calls]]]]; simplify_eq/=;
    (split; [|split]);
    try (intros c Hc;
         repeat (apply elem_of_cons in Hc as [->|Hc]; [auto|]);
         apply elem_of_nil in Hc; destruct Hc);
    repeat (apply NoDup_cons; split); try apply NoDup_nil_2;
    intros Hin;
    repeat (apply elem_of_cons in Hin as [Hin|Hin]; [discriminate Hin|]);
    apply elem_of_nil in Hin; exact Hin.
Qed.


Lemma push_active_false (w1 : world C) :
  push_active w1 = false <-> api_connected (api w1) = false /\ unsub w1 = None.
Proof.
  unfold push_active. rewrite orb_false_iff, bool_decide_eq_false.
  rewrite <- eq_None_not_Some. reflexivity.
Qed.

(** One poll either runs push-setup once, at a guard that saw push mode
    off, or leaves the registrations as they were. *)
Lemma poll_registers_or_not (w : world C) :
  (exists (device : Device) (w1 : world C),
      at_push_guard w = Some (device, w1)
      /\ push_active w1 = false
      /\ unsub w1 = unsub w
      /\ stop_listeners (snd (_async_update_data w))
         = stop_listeners w ++ [next_handle w]
      /\ background_tasks (snd (_async_update_data w))
         = background_tasks w ++ [("gruenbeck-cloud-listen", CoListen)]
      /\ unsub (snd (_async_update_data w)) = Some (next_handle w))
  \/ ((forall (device : Device) (w1 : world C),
          at_push_guard w = Some (device, w1) ->
          push_active w1 = true /\ unsub w1 = unsub w)
      /\ stop_listeners (snd (_async_update_data w)) = stop_listeners w
      /\ background_tasks (snd (_async_update_data w)) = background_tasks w
      /\ unsub (snd (_async_update_data w)) = unsub w).
Proof.
  pose proof (poll_cases w) as Hc.
  pose proof (fetch_device_spec (poll_started w)) as (a & calls & Hw1 & _).
  destruct (fetch_device (poll_started w)) as [[device|e] w1] eqn:Hf;
    simpl in Hw1; subst w1.
  - assert (Hg : at_push_guard w = Some
                   (device,
                    with_trace (trace (poll_started w) ++ map EvApi calls)
                      (with_api a (poll_started w)))).
    { unfold at_push_guard. rewrite Hf. reflexivity. }
    destruct (push_active _) eqn:Hp.
    + right. split.
      { intros d' w1' Hg'. rewrite Hg in Hg'. injection Hg' as <- <-.
        split; [exact Hp|reflexivity]. }
      destruct (api_enter_sd _) as [[[]|e] a']; rewrite Hc; simpl; auto.
    + left. eexists _, _. split; [exact Hg|]. split; [exact Hp|].
      rewrite Hc. simpl. auto.
  - right. rewrite Hc. simpl. split; [|auto].
    intros d' w1' Hg'. unfold at_push_guard in Hg'. rewrite Hf in Hg'.
    discriminate Hg'.
Qed.


Lemma api_calls_logs (tr : list event) :
  forallb is_log tr = true -> api_calls tr = [].
Proof.
  induction tr as [|ev tr IH]; simpl; [reflexivity|].
  intros [Hev Htr]%andb_true_iff. destruct ev; try discriminate Hev; auto.
Qed.


(** What one poll appends to the trace: the first debug line, the calls of
    the fetch, and then nothing (the fetch failed), or [enter_sd] and log
    lines (push mode active), or the two registrations of push-setup and
    the two debug lines. *)
Lemma poll_events (w : world C) :
  exists (calls : list api_call) (tail : list event),
    (calls `prefix_of` [CallSetDeviceFromId (_device_id w);
                        CallGetDeviceInfos; CallGetDeviceInfosParameters]
     \/ calls `prefix_of` [CallGetDeviceInfos; CallGetDeviceInfosParameters])
    /\ events_since w (snd (_async_update_data w))
       = EvLogDebug ("Regularly updated " +:+ name w +:+ " data")
         :: map EvApi calls ++ tail
    /\ match at_push_guard w with
       | None => tail = []
       | Some (device, w1) =>
           if push_active w1 then
             exists rest : list event,
               tail = EvApi CallEnterSd :: rest /\ forallb is_log rest = true
           else
             tail = [EvListenOnce (next_handle w);
                     EvBackgroundTask "gruenbeck-cloud-listen" CoListen;
                     EvLogDebug "=== real time data ===";
                     EvLogDebugDevice (api_device (api w1))]
       end.
Proof.
  pose proof (poll_cases w) as Hc.
  pose proof (fetch_device_spec (poll_started w)) as (a & calls & Hw1 & Hcalls).
  unfold at_push_guard.
  destruct (fetch_device (poll_started w)) as [[device|e] w1] eqn:Hf;
    simpl in Hw1; subst w1; exists calls.
  - destruct (push_active _) eqn:Hp.
    + destruct (api_enter_sd _) as [[[]|e] a'] eqn:Hsd; rewrite Hc.
      * eexists. split; [exact Hcalls|]. split.
        -- apply events_since_app. simpl. rewrite <- !app_assoc. simpl.
           reflexivity.
        -- eexists. split; reflexivity.
      * eexists. split; [exact Hcalls|]. split.
        -- apply events_since_app. simpl. rewrite <- !app_assoc. simpl.
           reflexivity.
        -- exists []. split; reflexivity.
    + rewrite Hc. eexists. split; [exact Hcalls|]. split.
      * apply events_since_app. simpl. rewrite <- !app_assoc. simpl.
        reflexivity.
      * reflexivity.
  - rewrite Hc. exists []. split; [exact Hcalls|]. split; [|reflexivity].
    apply events_since_app. simpl. rewrite <- !app_assoc. simpl.
    rewrite app_nil_r. reflexivity.
Qed.

(** No client method is called twice in one poll. *)
Lemma poll_no_retry (w : world C) :
  NoDup (api_calls (events_since w (snd (_async_update_data w)))).
Proof.
  destruct (poll_events w) as (calls & tail & Hcalls & -> & Htail).
  destruct (fetch_calls_facts _ _ Hcalls) as (Hnd_sd & Hnd & _).
  simpl. rewrite api_calls_app, api_calls_map_EvApi.
  destruct (at_push_guard w) as [[device w1]|].
  - destruct (push_active w1).
    + destruct Htail as (rest & -> & Hlogs). simpl.
      rewrite (api_calls_logs _ Hlogs). exact Hnd_sd.
    + subst tail. simpl. rewrite app_nil_r. exact Hnd.
  - subst tail. simpl. rewrite app_nil_r. exact Hnd.
Qed.

Lemma matches_poll_clause (e : exn) :
  isinstance e Exception = true ->
  matches [Exception; IndexError; KeyError;
           PyGruenbeckCloudResponseStatusError] e = true.
Proof. intros He. unfold matches. simpl. rewrite He. reflexivity. Qed.

(** The classes the spec lists are all caught by the clause. *)
Lemma listed_errors_are_caught (e : exn) :
  exn_cls e ∈ [Exception; RuntimeError; TypeError; LookupError; KeyError;
               IndexError; PyGruenbeckCloudError;
               PyGruenbeckCloudConnectionClosedError;
               PyGruenbeckCloudResponseStatusError;
               PyGruenbeckCloudUpdateParameterError] ->
  isinstance e Exception = true.
Proof.
  destruct e as [c m k]. simpl. intros Hin.
  destruct c; try reflexivity; exfalso;
    repeat (apply elem_of_cons in Hin as [Hin|Hin]; [discriminate Hin|]);
    apply elem_of_nil in Hin; exact Hin.
Qed.

(** C2.  Whatever exception (an instance of [Exception]) the body of the
    poll raises, at any of its steps, the poll raises [UpdateFailed] in the
    same world, with message "Unable to get data from API: " followed by the
    original message and with the original as cause; and no client method
    was called twice on the way, so nothing was retried. *)
Theorem poll_failure_is_update_failed (w : world C) (e : exn) (w1 : world C) :
  poll_body (poll_started w) = (Raise e, w1) ->
  isinstance e Exception = true ->
  exists err : exn,
    _async_update_data w = (Raise err, w1)
    /\ exn_cls err = UpdateFailed
    /\ str err = "Unable to get data from API: " +:+ str e
    /\ contains (str err) (str e)
    /\ exn_cause err = Some e
    /\ NoDup (api_calls (events_since w w1)).
Proof.
  intros Hbody He.
  assert (Hrun : _async_update_data w
                 = (Raise (Exn UpdateFailed
                             ("Unable to get data from API: " +:+ str e)
                             (Some e)), w1)).
  { unfold poll_started in Hbody. unfold _async_update_data. run_m.
    rewrite Hbody. simpl. rewrite (matches_poll_clause e He). reflexivity. }
  eexists. split; [exact Hrun|]. simpl.
  repeat split; try reflexivity.
  - apply contains_suffix.
  - pose proof (poll_no_retry w) as Hnd. rewrite Hrun in Hnd. exact Hnd.
Qed.


End Poll.

(** *** The push task and the shutdown listener *)

Section Push.
Context {C : Type} `{!Client C}.

Lemma apply_pushes_cons (d : Device) (pushed : list Device) (w : world C) :
  apply_pushes (d :: pushed) w
  = apply_pushes pushed (snd (async_set_updated_data d w)).
Proof. reflexivity. Qed.

(** Applying pushed devices touches the snapshot, the flag and the trace
    only; each push logs one line and notifies the listeners once. *)
Lemma apply_pushes_spec (pushed : list Device) (w : world C) :
  api (apply_pushes pushed w) = api w
  /\ unsub (apply_pushes pushed w) = unsub w
  /\ stop_listeners (apply_pushes pushed w) = stop_listeners w
  /\ name (apply_pushes pushed w) = name w
  /\ trace (apply_pushes pushed w) = trace w ++ push_events (name w) pushed.
Proof.
  revert w. induction pushed as [|d pushed IH]; intros w.
  - simpl. rewrite app_nil_r. auto.
  - rewrite apply_pushes_cons.
    destruct (IH (snd (async_set_updated_data d w))) as (Ha & Hu & Hs & Hn & Ht).
    rewrite Ha, Hu, Hs, Hn, Ht. unfold async_set_updated_data. run_m.
    rewrite <- !app_assoc. auto.
Qed.

Lemma notifications_push_events (n : string) (pushed : list Device) :
  notifications (push_events n pushed) = length pushed.
Proof.
  induction pushed as [|d pushed IH]; simpl; [reflexivity|].
  rewrite IH. reflexivity.
Qed.

Lemma elem_of_push_events (n : string) (pushed : list Device) (c : api_call) :
  EvApi c ∉ push_events n pushed.
Proof.
  induction pushed as [|d pushed IH]; simpl; intros Hin.
  - apply elem_of_nil in Hin. exact Hin.
  - apply elem_of_cons in Hin as [Hin|Hin]; [discriminate Hin|].
    apply elem_of_cons in Hin as [Hin|Hin]; [discriminate Hin|].
    exact (IH Hin).
Qed.

(** Dropping the handle: it is called if there is one, and absent after. *)
Lemma release_unsub_spec (w : world C) :
  fst (release_unsub w) = Ok tt
  /\ unsub (snd (release_unsub w)) = None
  /\ api (snd (release_unsub w)) = api w
  /\ last_update_success (snd (release_unsub w)) = last_update_success w
  /\ stop_listeners (snd (release_unsub w))
     = match unsub w with
       | Some h => filter (fun h' => h' ≠ h) (stop_listeners w)
       | None => stop_listeners w
       end
  /\ trace (snd (release_unsub w))
     = trace w ++ match unsub w with
                  | Some h => [EvUnsubCalled h]
                  | None => []
                  end.
Proof.
  unfold release_unsub. run_m. destruct (unsub w) as [h|] eqn:Hu; simpl.
  - auto 10.
  - rewrite Hu, app_nil_r. auto 10.
Qed.

(** The end of [listen]: the disconnect is called; the handle is dropped
    when the disconnect returns. *)
Lemma listen_exit_spec (w2 : world C) :
  exists tail : list event,
    trace (snd (listen_exit w2)) = trace w2 ++ EvApi CallDisconnect :: tail
    /\ notifications tail = 0
    /\ last_update_success (snd (listen_exit w2)) = last_update_success w2
    /\ api (snd (listen_exit w2)) = snd (api_disconnect (api w2))
    /\ match fst (api_disconnect (api w2)) with
       | Ok _ =>
           fst (listen_exit w2) = Ok tt
           /\ unsub (snd (listen_exit w2)) = None
           /\ stop_listeners (snd (listen_exit w2))
              = match unsub w2 with
                | Some h => filter (fun h' => h' ≠ h) (stop_listeners w2)
                | None => stop_listeners w2
                end
       | Raise e =>
           fst (listen_exit w2) = Raise e
           /\ unsub (snd (listen_exit w2)) = unsub w2
           /\ stop_listeners (snd (listen_exit w2)) = stop_listeners w2
       end.
Proof.
  unfold listen_exit. unfold bind, await_api.
  destruct (api_disconnect (api w2)) as [[[]|e] a3]; simpl.
  - destruct (release_unsub_spec
                (with_trace (trace w2 ++ [EvApi CallDisconnect]) (with_api a3 w2)))
      as (Hr & Hu & Ha & Hl & Hs & Ht).
    destruct (release_unsub _) as [r w3]. simpl in *. subst r.
    exists (match unsub w2 with Some h => [EvUnsubCalled h] | None => [] end).
    rewrite Ht, <- app_assoc. simpl.
    repeat split; auto. destruct (unsub w2); reflexivity.
  - exists []. auto 10.
Qed.

Lemma listen_connect_returns (w : world C) (a1 : C) :
  api_connect (api w) = (Ok tt, a1) ->
  listen_connect w = (Ok true, connected_world a1 w).
Proof.
  intros Hconn. unfold listen_connect, connected_world. run_m.
  rewrite Hconn. reflexivity.
Qed.

(** The second [try], by the way the listen call ends. *)
Lemma listen_loop_cases (w1 : world C) (pushed : list Device)
    (r : result unit) (a2 : C) :
  api_listen (api w1) = (pushed, r, a2) ->
  listen_loop w1
  = match r with
    | Ok _ => (Ok tt, listened_world pushed a2 w1)
    | Raise e =>
        if closed_or_status_error e then
          (Ok tt, closed_handled e (listened_world pushed a2 w1))
        else if isinstance e PyGruenbeckCloudError then
          (Ok tt, generic_handled e (listened_world pushed a2 w1))
        else (Raise e, listened_world pushed a2 w1)
    end.
Proof.
  intros Hlisten.
  unfold listen_loop, try_except, await_api_listen, listened_world,
    apply_pushes, closed_handled, generic_handled.
  rewrite Hlisten. destruct r as [[]|e]; [reflexivity|].
  unfold closed_or_status_error, find_handler, matches. simpl.
  rewrite !orb_false_r.
  destruct (isinstance e PyGruenbeckCloudConnectionClosedError
            || isinstance e PyGruenbeckCloudResponseStatusError).
  - run_m. reflexivity.
  - destruct (isinstance e PyGruenbeckCloudError); [|reflexivity].
    run_m. f_equal. world_eq.
Qed.

(** [listen] once the connection is up, by the way the listen call ends. *)
Lemma listen_connected (w : world C) (a1 : C) (pushed : list Device)
    (r : result unit) (a2 : C) :
  api_connect (api w) = (Ok tt, a1) ->
  api_listen a1 = (pushed, r, a2) ->
  listen w
  = match r with
    | Ok _ => listen_exit (listened_world pushed a2 (connected_world a1 w))
    | Raise e =>
        if closed_or_status_error e then
          listen_exit
            (closed_handled e (listened_world pushed a2 (connected_world a1 w)))
        else if isinstance e PyGruenbeckCloudError then
          listen_exit
            (generic_handled e (listened_world pushed a2 (connected_world a1 w)))
        else (Raise e, listened_world pushed a2 (connected_world a1 w))
    end.
Proof.
  intros Hconn Hlisten.
  unfold listen, bind. rewrite (listen_connect_returns w a1 Hconn).
  rewrite (listen_loop_cases (connected_world a1 w) pushed r a2 Hlisten).
  destruct r as [[]|e]; [reflexivity|].
  destruct (closed_or_status_error e); [reflexivity|].
  destruct (isinstance e PyGruenbeckCloudError); reflexivity.
Qed.

Lemma listened_world_spec (w : world C) (a1 a2 : C) (pushed : list Device) :
  api (listened_world pushed a2 (connected_world a1 w)) = a2
  /\ unsub (listened_world pushed a2 (connected_world a1 w)) = unsub w
  /\ stop_listeners (listened_world pushed a2 (connected_world a1 w))
     = stop_listeners w
  /\ trace (listened_world pushed a2 (connected_world a1 w))
     = trace w ++ EvApi CallConnect :: EvApi CallListen
                  :: push_events (name w) pushed.
Proof.
  unfold listened_world.
  destruct (apply_pushes_spec pushed
              (with_trace (trace (connected_world a1 w) ++ [EvApi CallListen])
                 (with_api a2 (connected_world a1 w))))
    as (Ha & Hu & Hs & Hn & Ht).
  rewrite Ha, Hu, Hs, Ht. simpl. rewrite <- !app_assoc. auto.
Qed.

(** C7.  The listen call ends with a vendor error, after pushing [pushed]:
    if the error is a generic vendor error, the success flag is false when
    the task ends and the listeners were notified once for each push and
    exactly once more, for the error; if it is a closed-connection or a
    status error, the flag is false, the listeners were notified for the
    pushes only, and the task ends as the disconnect call ends, the error
    of the listen call going nowhere. *)
Theorem listen_termination_flags (w : world C) (a1 : C)
    (pushed : list Device) (e : exn) (a2 : C) :
  api_connect (api w) = (Ok tt, a1) ->
  api_listen a1 = (pushed, Raise e, a2) ->
  (generic_vendor_error e = true ->
     last_update_success (snd (listen w)) = false
     /\ notifications (events_since w (snd (listen w))) = length pushed + 1)
  /\ (closed_or_status_error e = true ->
     last_update_success (snd (listen w)) = false
     /\ notifications (events_since w (snd (listen w))) = length pushed
     /\ fst (listen w) = fst (api_disconnect a2)).
Proof.
  intros Hconn Hlisten.
  rewrite (listen_connected _ _ _ _ _ Hconn Hlisten).
  destruct (listened_world_spec w a1 a2 pushed) as (Ha & Hu & Hs & Ht).
  split.
  - intros Hgen.
    rewrite (generic_vendor_not_closed_or_status e Hgen).
    unfold generic_vendor_error in Hgen.
    apply andb_true_iff in Hgen as [Hgen _].
    apply andb_true_iff in Hgen as [Hgen _]. rewrite Hgen.
    destruct (listen_exit_spec
                (generic_handled e
                   (listened_world pushed a2 (connected_world a1 w))))
      as (tail & Htr & Hnot & Hlus & _).
    split; [rewrite Hlus; reflexivity|].
    rewrite (events_since_app w _
               (EvApi CallConnect :: EvApi CallListen
                :: push_events (name w) pushed
                   ++ [EvUpdateListeners; EvLogError (str e)]
                   ++ EvApi CallDisconnect :: tail)).
    + simpl. rewrite !notifications_app, notifications_push_events. simpl.
      rewrite Hnot. lia.
    + rewrite Htr. simpl. rewrite Ht. rewrite <- !app_assoc. reflexivity.
  - intros Hcs. rewrite Hcs.
    destruct (listen_exit_spec
                (closed_handled e
                   (listened_world pushed a2 (connected_world a1 w))))
      as (tail & Htr & Hnot & Hlus & _ & Hres).
    split; [rewrite Hlus; reflexivity|]. split.
    + rewrite (events_since_app w _
                 (EvApi CallConnect :: EvApi CallListen
                  :: push_events (name w) pushed
                     ++ [EvLogError (str e)]
                     ++ EvApi CallDisconnect :: tail)).
      * simpl. rewrite !notifications_app, notifications_push_events. simpl.
        rewrite Hnot. lia.
      * rewrite Htr. simpl. rewrite Ht. rewrite <- !app_assoc. reflexivity.
    + simpl in Hres. rewrite Ha in Hres.
      destruct (fst (api_disconnect a2)) as [[]|e']; apply Hres.
Qed.

(** X1.  The connection fails with a vendor error: the task logs it, drops
    the handle and ends there, normally; it neither listens nor
    disconnects, and leaves the success flag alone. *)
Lemma listen_connect_failure (w : world C) (e : exn) (a1 : C) :
  api_connect (api w) = (Raise e, a1) ->
  isinstance e PyGruenbeckCloudError = true ->
  fst (listen w) = Ok tt
  /\ unsub (snd (listen w)) = None
  /\ last_update_success (snd (listen w)) = last_update_success w
  /\ events_since w (snd (listen w))
     = EvApi CallConnect :: EvLogError (str e)
       :: match unsub w with
          | Some h => [EvUnsubCalled h]
          | None => []
          end.
Proof.
  intros Hconn Hvendor.
  unfold listen, listen_connect, release_unsub. run_m. rewrite Hconn. simpl.
  unfold matches. simpl. rewrite Hvendor. simpl.
  destruct (unsub w) as [h|] eqn:Hunsub; simpl;
    (split; [reflexivity|]); (split; [auto|]); (split; [reflexivity|]);
    apply events_since_app; simpl; rewrite <- ?app_assoc; reflexivity.
Qed.

(** When the listen call returns or raises a vendor error, the task
    goes on to [listen_exit], in a world whose client is as the listen call
    left it and whose handle and bus are as at the start. *)
Lemma listen_reaches_exit (w : world C) (a1 : C) (pushed : list Device)
    (r : result unit) (a2 : C) :
  api_connect (api w) = (Ok tt, a1) ->
  api_listen a1 = (pushed, r, a2) ->
  (forall e : exn, r = Raise e -> isinstance e PyGruenbeckCloudError = true) ->
  exists (w2 : world C) (mid : list event),
    listen w = listen_exit w2
    /\ api w2 = a2
    /\ unsub w2 = unsub w
    /\ stop_listeners w2 = stop_listeners w
    /\ trace w2 = trace w ++ mid.
Proof.
  intros Hconn Hlisten Hvendor.
  rewrite (listen_connected _ _ _ _ _ Hconn Hlisten).
  destruct (listened_world_spec w a1 a2 pushed) as (Ha & Hu & Hs & Ht).
  destruct r as [[]|e].
  - eexists _, _. split; [reflexivity|]. rewrite Ha, Hu, Hs, Ht. auto.
  - rewrite (Hvendor e eq_refl).
    destruct (closed_or_status_error e);
      eexists _, _; (split; [reflexivity|]); simpl;
      rewrite Ha, Hu, Hs, Ht, <- app_assoc; auto.
Qed.

(** C8.  The listen call ends, by returning or with a vendor error (a
    closed connection, a bad status, or any other), after a successful
    connect: the task calls the client's disconnect; and when the disconnect
    returns, the task ends normally with the handle absent, the listener it
    stood for gone from the bus. *)
Theorem listen_exit_disconnects (w : world C) (a1 : C)
    (pushed : list Device) (r : result unit) (a2 : C) :
  api_connect (api w) = (Ok tt, a1) ->
  api_listen a1 = (pushed, r, a2) ->
  (forall e : exn, r = Raise e -> isinstance e PyGruenbeckCloudError = true) ->
  EvApi CallDisconnect ∈ events_since w (snd (listen w))
  /\ (forall a3 : C,
        api_disconnect a2 = (Ok tt, a3) ->
        fst (listen w) = Ok tt
        /\ unsub (snd (listen w)) = None
        /\ api (snd (listen w)) = a3
        /\ forall h : handle,
             unsub w = Some h -> h ∉ stop_listeners (snd (listen w))).
Proof.
  intros Hconn Hlisten Hvendor.
  destruct (listen_reaches_exit _ _ _ _ _ Hconn Hlisten Hvendor)
    as (w2 & mid & -> & Ha2 & Hu2 & Hs2 & Ht2).
  destruct (listen_exit_spec w2) as (tail & Htr & _ & _ & Hapi & Hres).
  split.
  - rewrite (events_since_app w _ (mid ++ EvApi CallDisconnect :: tail)).
    + apply elem_of_app. right. apply elem_of_cons. left. reflexivity.
    + rewrite Htr, Ht2, <- app_assoc. reflexivity.
  - intros a3 Hdis. rewrite Ha2, Hdis in Hres, Hapi. simpl in Hres, Hapi.
    destruct Hres as (Hok & Hnone & Hstop).
    repeat split; auto.
    intros h Hh. rewrite Hstop, Hu2, Hh, Hs2.
    intros Hin. apply list_elem_of_filter in Hin as [Hne _]. apply Hne.
    reflexivity.
Qed.

(** Running the shutdown listener once per registration. *)
Lemma close_each_spec (l : list handle) (w0 : world C) :
  trace (foldl (fun w' _ => snd (close_websocket w')) w0 l)
  = trace w0 ++ replicate (length l) (EvApi CallDisconnect)
  /\ stop_listeners (foldl (fun w' _ => snd (close_websocket w')) w0 l)
     = stop_listeners w0
  /\ (l <> [] ->
      unsub (foldl (fun w' _ => snd (close_websocket w')) w0 l) = None)
  /\ (unsub w0 = None ->
      unsub (foldl (fun w' _ => snd (close_websocket w')) w0 l) = None).
Proof.
  revert w0. induction l as [|h l IH]; intros w0; simpl.
  - rewrite app_nil_r. repeat split; auto. intros Hne. contradiction.
  - destruct (IH (snd (close_websocket w0))) as (Ht & Hs & _ & Hn).
    assert (Hstep : trace (snd (close_websocket w0))
                    = trace w0 ++ [EvApi CallDisconnect]
                    /\ stop_listeners (snd (close_websocket w0))
                       = stop_listeners w0
                    /\ unsub (snd (close_websocket w0)) = None).
    { unfold close_websocket. run_m.
      destruct (api_disconnect (api w0)) as [[[]|e] a]; simpl; auto. }
    destruct Hstep as (Ht1 & Hs1 & Hu1).
    rewrite Ht, Hs, Ht1, Hs1, <- app_assoc. simpl.
    repeat split; auto.
Qed.

(** C9.  The host fires the shutdown event while a shutdown listener of the
    coordinator is registered: afterwards the handle is absent, the client's
    disconnect was called, and the one-shot listener is gone; and the
    handler itself, whenever it runs, clears the handle and calls the
    disconnect, ending as that call ends. *)
Theorem shutdown_clears_and_disconnects (w : world C) (h : handle) :
  h ∈ stop_listeners w ->
  unsub (fire_homeassistant_stop w) = None
  /\ EvApi CallDisconnect ∈ events_since w (fire_homeassistant_stop w)
  /\ stop_listeners (fire_homeassistant_stop w) = []
  /\ (forall w0 : world C,
        unsub (snd (close_websocket w0)) = None
        /\ trace (snd (close_websocket w0))
           = trace w0 ++ [EvApi CallDisconnect]
        /\ fst (close_websocket w0) = fst (api_disconnect (api w0))).
Proof.
  intros Hin. unfold fire_homeassistant_stop.
  destruct (close_each_spec (stop_listeners w) (with_stop_listeners [] w))
    as (Ht & Hs & Hne & _).
  destruct (stop_listeners w) as [|h0 l] eqn:Hl.
  { apply elem_of_nil in Hin. destruct Hin. }
  split; [apply Hne; discriminate|]. split; [|split].
  - rewrite (events_since_app w _
               (replicate (length (h0 :: l)) (EvApi CallDisconnect)));
      [|exact Ht].
    simpl. apply elem_of_cons. left. reflexivity.
  - exact Hs.
  - intros w0. unfold close_websocket. run_m.
    destruct (api_disconnect (api w0)) as [[[]|e] a]; simpl; auto.
Qed.

End Push.

(** *** The registration invariant *)

Section Runs.
Context {C : Type} `{!Client C}.

Lemma filter_other_than (h : handle) :
  filter (fun h' : handle => h' ≠ h) [h] = [].
Proof.
  rewrite filter_cons. destruct (decide (h ≠ h)) as [Hne|_]; [|reflexivity].
  contradiction.
Qed.

(** The listen task leaves handle and bus alone, or drops the handle and
    removes its listener. *)
Lemma listen_registrations (w : world C) :
  (unsub (snd (listen w)) = unsub w
   /\ stop_listeners (snd (listen w)) = stop_listeners w)
  \/ (unsub (snd (listen w)) = None
      /\ stop_listeners (snd (listen w))
         = match unsub w with
           | Some h => filter (fun h' => h' ≠ h) (stop_listeners w)
           | None => stop_listeners w
           end).
Proof.
  destruct (api_connect (api w)) as [[[]|e] a1] eqn:Hconn.
  - destruct (api_listen a1) as [[pushed r] a2] eqn:Hlisten.
    rewrite (listen_connected _ _ _ _ _ Hconn Hlisten).
    destruct (listened_world_spec w a1 a2 pushed) as (_ & Hu & Hs & _).
    assert (Hexit : forall w2 : world C,
               unsub w2 = unsub w -> stop_listeners w2 = stop_listeners w ->
               (unsub (snd (listen_exit w2)) = unsub w
                /\ stop_listeners (snd (listen_exit w2)) = stop_listeners w)
               \/ (unsub (snd (listen_exit w2)) = None
                   /\ stop_listeners (snd (listen_exit w2))
                      = match unsub w with
                        | Some h => filter (fun h' => h' ≠ h) (stop_listeners w)
                        | None => stop_listeners w
                        end)).
    { intros w2 Hu2 Hs2.
      destruct (listen_exit_spec w2) as (tail & _ & _ & _ & _ & Hres).
      destruct (fst (api_disconnect (api w2))) as [[]|e'].
      - right. destruct Hres as (_ & Hnone & Hstop).
        rewrite Hnone, Hstop, Hu2, Hs2. auto.
      - left. destruct Hres as (_ & Hsame & Hstop).
        rewrite Hsame, Hstop, Hu2, Hs2. auto. }
    destruct r as [[]|e].
    + apply Hexit; assumption.
    + destruct (closed_or_status_error e); [apply Hexit; assumption|].
      destruct (isinstance e PyGruenbeckCloudError);
        [apply Hexit; assumption|].
      left. simpl. auto.
  - unfold listen, listen_connect, release_unsub. run_m. rewrite Hconn. simpl.
    destruct (matches _ e); simpl; [|left; auto].
    destruct (unsub w) as [h|] eqn:Hunsub; simpl.
    + right. auto.
    + right. rewrite Hunsub. auto.
Qed.

(** The services talk to the client and may replace the snapshot; handle
    and bus are not theirs. *)
Lemma update_parameters_registrations (data0 : list (pyval * pyval))
    (w : world C) :
  unsub (snd (update_device_infos_parameters data0 w)) = unsub w
  /\ stop_listeners (snd (update_device_infos_parameters data0 w))
     = stop_listeners w.
Proof.
  destruct (api_update_device_infos_parameters data0 (api w))
    as [[d|e] a] eqn:Hcall.
  - rewrite (update_parameters_return _ _ _ _ Hcall). simpl. auto.
  - rewrite (update_parameters_raise _ _ _ _ Hcall). simpl. auto.
Qed.

Lemma change_settings_registrations (call : ServiceCall) (w : world C) :
  unsub (snd (service_change_settings call w)) = unsub w
  /\ stop_listeners (snd (service_change_settings call w)) = stop_listeners w.
Proof.
  unfold service_change_settings, getitem, dict_display.
  unfold bind at 1.
  destruct (call_data call !! SERVICE_PARAM_PARAMETER) as [k|];
    [|simpl; auto].
  unfold ret at 1. unfold bind at 1.
  destruct (call_data call !! SERVICE_PARAM_VALUE) as [v|];
    [|simpl; auto].
  unfold ret at 1. unfold bind at 1.
  destruct k; simpl; auto; apply update_parameters_registrations.
Qed.

Lemma measurements_registrations (k : series_kind) (call : ServiceCall)
    (w : world C) :
  unsub (snd (service_of k call w)) = unsub w
  /\ stop_listeners (snd (service_of k call w)) = stop_listeners w.
Proof.
  destruct k; simpl;
    unfold service_get_device_salt_measurements,
      service_get_device_water_measurements; run_m.
  - destruct (api_get_device_salt_measurements (api w)) as [[d|e] a]; simpl;
      [destruct (salt d)|]; simpl; auto.
  - destruct (api_get_device_water_measurements (api w)) as [[d|e] a]; simpl;
      [destruct (water d)|]; simpl; auto.
Qed.

(** Every step keeps the bus in step with the handle. *)
Lemma run_op_keeps_registration (o : op) (w : world C) :
  registration_matches_handle w ->
  registration_matches_handle (run_op o w).
Proof.
  unfold registration_matches_handle. intros Hinv.
  destruct o; simpl.
  - destruct (poll_registers_or_not w)
      as [(d & w1 & Hg & Hp & Hu & Hs & _ & Hu')|(_ & Hs & _ & Hu)].
    + apply push_active_false in Hp as [_ Hnone].
      rewrite Hs, Hu', Hinv, <- Hu, Hnone. reflexivity.
    + rewrite Hs, Hu. exact Hinv.
  - destruct (listen_registrations w) as [[Hu Hs]|[Hu Hs]].
    + rewrite Hu, Hs. exact Hinv.
    + rewrite Hu, Hs, Hinv.
      destruct (unsub w) as [h|]; [apply filter_other_than|reflexivity].
  - unfold fire_homeassistant_stop.
    destruct (close_each_spec (stop_listeners w) (with_stop_listeners [] w))
      as (_ & Hs & Hne & Hnone).
    rewrite Hs. simpl.
    destruct (stop_listeners w) as [|h0 l] eqn:Hl.
    + rewrite Hnone; [reflexivity|]. simpl.
      destruct (unsub w); [discriminate Hinv|reflexivity].
    + rewrite Hne; [reflexivity|discriminate].
  - destruct (measurements_registrations Salt call w) as [Hu Hs].
    simpl in Hu, Hs. rewrite Hu, Hs. exact Hinv.
  - destruct (measurements_registrations Water call w) as [Hu Hs].
    simpl in Hu, Hs. rewrite Hu, Hs. exact Hinv.
  - unfold service_regenerate. run_m.
    destruct (api_regenerate (api w)) as [r a]. simpl. exact Hinv.
  - destruct (change_settings_registrations call w) as [Hu Hs].
    rewrite Hu, Hs. exact Hinv.
  - destruct (update_parameters_registrations data0 w) as [Hu Hs].
    rewrite Hu, Hs. exact Hinv.
Qed.

Lemma run_ops_keep_registration (ops : list op) (w : world C) :
  registration_matches_handle w ->
  registration_matches_handle (run_ops ops w).
Proof.
  unfold run_ops. revert w.
  induction ops as [|o ops IH]; intros w Hinv; simpl; [exact Hinv|].
  apply IH. apply run_op_keeps_registration. exact Hinv.
Qed.

(** X11.  Whatever the host makes a fresh coordinator do, and whatever the
    client answers, the bus never holds more than one shutdown listener of
    the coordinator. *)
Lemma at_most_one_registration (a : C) (ops : list op) :
  length (stop_listeners (run_ops ops (init_world a))) <= 1.
Proof.
  pose proof (run_ops_keep_registration ops (init_world a) eq_refl) as Hinv.
  unfold registration_matches_handle in Hinv. rewrite Hinv.
  destruct (unsub _); simpl; lia.
Qed.

End Runs.

(** *** Further properties of the push task *)

Section PushTask.
Context {C : Type} `{!Client C}.

Lemma not_vendor_not_closed_or_status (e : exn) :
  isinstance e PyGruenbeckCloudError = false ->
  closed_or_status_error e = false.
Proof. destruct e as [c m k]. destruct c; vm_compute; congruence. Qed.

Lemma push_events_kinds (n : string) (pushed : list Device) (ev : event) :
  ev ∈ push_events n pushed ->
  ev = EvLogDebug ("Manually updated " +:+ n +:+ " data")
  \/ ev = EvUpdateListeners.
Proof.
  induction pushed as [|d pushed IH]; simpl; intros Hin.
  - apply elem_of_nil in Hin. destruct Hin.
  - apply elem_of_cons in Hin as [Hin|Hin]; [left; exact Hin|].
    apply elem_of_cons in Hin as [Hin|Hin]; [right; exact Hin|].
    exact (IH Hin).
Qed.

(** X2.  An exception that is not the vendor's (a runtime error, a
    cancellation) raised by the connect or by the listen call escapes the
    task as it is: no handler runs, the disconnect is not called, and the
    handle and its listener stay in place. *)
Theorem listen_foreign_error_escapes (w : world C) (e : exn) (a1 : C) :
  api_connect (api w) = (Raise e, a1)
  \/ (api_connect (api w) = (Ok tt, a1)
      /\ exists (pushed : list Device) (a2 : C),
           api_listen a1 = (pushed, Raise e, a2)) ->
  isinstance e PyGruenbeckCloudError = false ->
  fst (listen w) = Raise e
  /\ (EvApi CallDisconnect ∉ events_since w (snd (listen w)))
  /\ (forall h : handle, EvUnsubCalled h ∉ events_since w (snd (listen w)))
  /\ unsub (snd (listen w)) = unsub w
  /\ stop_listeners (snd (listen w)) = stop_listeners w.
Proof.
  intros [Hconn|(Hconn & pushed & a2 & Hlisten)] Hforeign.
  - unfold listen, listen_connect. run_m. rewrite Hconn. simpl.
    unfold matches. simpl.
    assert (Hstatus : isinstance e PyGruenbeckCloudResponseStatusError = false).
    { destruct e as [c m k]. destruct c; vm_compute in *; congruence. }
    rewrite Hforeign, Hstatus. simpl.
    rewrite (events_since_app w _ [EvApi CallConnect]) by reflexivity.
    split; [reflexivity|]. split; [|split; [|auto]].
    + intros Hin. apply elem_of_cons in Hin as [Hin|Hin];
        [discriminate Hin|]. apply elem_of_nil in Hin. exact Hin.
    + intros h Hin. apply elem_of_cons in Hin as [Hin|Hin];
        [discriminate Hin|]. apply elem_of_nil in Hin. exact Hin.
  - rewrite (listen_connected _ _ _ _ _ Hconn Hlisten).
    rewrite (not_vendor_not_closed_or_status e Hforeign), Hforeign. simpl.
    destruct (listened_world_spec w a1 a2 pushed) as (_ & Hu & Hs & Ht).
    rewrite (events_since_app w _ _ Ht).
    split; [reflexivity|]. split; [|split; [|auto]].
    + intros Hin. apply elem_of_cons in Hin as [Hin|Hin];
        [discriminate Hin|].
      apply elem_of_cons in Hin as [Hin|Hin]; [discriminate Hin|].
      exact (elem_of_push_events _ _ _ Hin).
    + intros h Hin. apply elem_of_cons in Hin as [Hin|Hin];
        [discriminate Hin|].
      apply elem_of_cons in Hin as [Hin|Hin]; [discriminate Hin|].
      destruct (push_events_kinds _ _ _ Hin) as [Hev|Hev]; discriminate Hev.
Qed.




End PushTask.

(** *** Further properties of the services *)

Section ServiceEdges.
Context {C : Type} `{!Client C}.

(** X4.  When the client's parameter update returns a device, that device
    becomes the snapshot, by plain assignment: the success flag is as it
    was and the listeners are not notified (unlike a push), and the client
    was called once. *)
Theorem update_parameters_replaces_silently (data0 : list (pyval * pyval))
    (w : world C) (d : Device) (a : C) :
  api_update_device_infos_parameters data0 (api w) = (Ok d, a) ->
  fst (update_device_infos_parameters data0 w) = Ok tt
  /\ data (snd (update_device_infos_parameters data0 w)) = Some d
  /\ last_update_success (snd (update_device_infos_parameters data0 w))
     = last_update_success w
  /\ notifications
       (events_since w (snd (update_device_infos_parameters data0 w))) = 0
  /\ api_calls (events_since w (snd (update_device_infos_parameters data0 w)))
     = [CallUpdateDeviceInfosParameters data0].
Proof.
  intros Hcall. rewrite (update_parameters_return _ _ _ _ Hcall). simpl.
  rewrite (events_since_app w _
             [EvApi (CallUpdateDeviceInfosParameters data0)])
    by reflexivity.
  auto.
Qed.

(** X5.  A change-setting call that lacks the "parameter" or the "value"
    key raises [KeyError] for the first key missing, as it is (not wrapped
    for the user), before anything is done: the client is not called and
    the coordinator is as before. *)
Theorem change_settings_missing_key (call : ServiceCall) (w : world C) :
  call_data call !! SERVICE_PARAM_PARAMETER = None
  \/ call_data call !! SERVICE_PARAM_VALUE = None ->
  exists key : string,
    service_change_settings call w
    = (Raise (Exn KeyError ("'" +:+ key +:+ "'") None), w)
    /\ call_data call !! key = None
    /\ (key = SERVICE_PARAM_PARAMETER
        \/ (key = SERVICE_PARAM_VALUE
            /\ is_Some (call_data call !! SERVICE_PARAM_PARAMETER))).
Proof.
  intros Hmissing.
  unfold service_change_settings, getitem.
  destruct (call_data call !! SERVICE_PARAM_PARAMETER) as [k|] eqn:Hp.
  - destruct Hmissing as [Hbad|Hv]; [discriminate Hbad|].
    exists SERVICE_PARAM_VALUE. unfold bind at 1. unfold ret at 1.
    unfold bind at 1. rewrite Hv. unfold raise.
    split; [reflexivity|]. split; [reflexivity|]. right.
    split; [reflexivity|]. eexists. reflexivity.
  - exists SERVICE_PARAM_PARAMETER. unfold bind at 1. unfold raise.
    split; [reflexivity|]. split; [assumption || reflexivity|].
    left. reflexivity.
Qed.

(** X6.  The two measurement services and regenerate only pass through:
    they call the client once, give back what it raises as it is, and leave
    the snapshot, the flag, the handle, the bus and the tasks alone (the
    device a measurement call returns is not stored). *)
Theorem pass_through_services (call : ServiceCall) (w : world C) :
  (forall k : series_kind,
      data (snd (service_of k call w)) = data w
      /\ last_update_success (snd (service_of k call w))
         = last_update_success w
      /\ unsub (snd (service_of k call w)) = unsub w
      /\ stop_listeners (snd (service_of k call w)) = stop_listeners w
      /\ background_tasks (snd (service_of k call w)) = background_tasks w
      /\ length (api_calls (events_since w (snd (service_of k call w)))) = 1
      /\ forall (e : exn) (a : C),
           fetch_series_of k (api w) = (Raise e, a) ->
           fst (service_of k call w) = Raise e)
  /\ data (snd (service_regenerate call w)) = data w
  /\ last_update_success (snd (service_regenerate call w))
     = last_update_success w
  /\ unsub (snd (service_regenerate call w)) = unsub w
  /\ stop_listeners (snd (service_regenerate call w)) = stop_listeners w
  /\ background_tasks (snd (service_regenerate call w)) = background_tasks w
  /\ api_calls (events_since w (snd (service_regenerate call w)))
     = [CallRegenerate]
  /\ fst (service_regenerate call w) = fst (api_regenerate (api w)).
Proof.
  split.
  - intros k. destruct k; simpl;
      unfold service_get_device_salt_measurements,
        service_get_device_water_measurements; run_m.
    + destruct (api_get_device_salt_measurements (api w)) as [[d|e] a] eqn:Hf;
        simpl; [destruct (salt d)|]; simpl;
        (rewrite (events_since_app w _
                    [EvApi CallGetDeviceSaltMeasurements]) by reflexivity);
        repeat split; try reflexivity; intros e' a' Heq; congruence.
    + destruct (api_get_device_water_measurements (api w)) as [[d|e] a] eqn:Hf;
        simpl; [destruct (water d)|]; simpl;
        (rewrite (events_since_app w _
                    [EvApi CallGetDeviceWaterMeasurements]) by reflexivity);
        repeat split; try reflexivity; intros e' a' Heq; congruence.
  - unfold service_regenerate. run_m.
    destruct (api_regenerate (api w)) as [r a]. simpl.
    rewrite (events_since_app w _ [EvApi CallRegenerate]) by reflexivity.
    repeat split; reflexivity.
Qed.

End ServiceEdges.

(** *** The manual telemetry fetch *)

Section TelemetryFetch.
Context {C : Type} `{!Client C} {U : UrlClass}.

(** X10.  The manual telemetry fetch asks the client for a token first and
    goes no further without one.  With a token it looks [URL.build] up: if
    the class has no [build] it raises [AttributeError], and if [build]
    raises that exception comes out, in both cases with no request sent.
    Only when [build] returns a URL does it send a request, exactly one, to
    that URL, accepting the statuses 202 and 200, with the token put into
    the template's headers, the device id having been put into the path
    given to [build]; what the request raises comes out as it is, and its
    response goes through [DeviceRealtimeInfo.from_dict].  The
    coordinator's own attributes are not touched. *)
Theorem refresh_sd_requests (w : world C) :
  data (snd (refresh_sd w)) = data w
  /\ last_update_success (snd (refresh_sd w)) = last_update_success w
  /\ unsub (snd (refresh_sd w)) = unsub w
  /\ stop_listeners (snd (refresh_sd w)) = stop_listeners w
  /\ match api__get_web_access_token (api w) with
     | (Raise e, a) =>
         fst (refresh_sd w) = Raise e
         /\ api_calls (events_since w (snd (refresh_sd w)))
            = [CallGetWebAccessToken]
     | (Ok token, a) =>
         match URL_build with
         | None =>
             fst (refresh_sd w)
             = Raise (Exn AttributeError
                        "type object 'URL' has no attribute 'build'" None)
             /\ api_calls (events_since w (snd (refresh_sd w)))
                = [CallGetWebAccessToken]
         | Some build =>
             match build (tpl_scheme WEB_REQUESTS_refresh_sd)
                     (tpl_host WEB_REQUESTS_refresh_sd)
                     (tpl_port WEB_REQUESTS_refresh_sd)
                     (api__placeholder_to_values_str
                        (tpl_path WEB_REQUESTS_refresh_sd)
                        [(PARAM_NAME_DEVICE_ID, _device_id w)])
                     (tpl_query_params WEB_REQUESTS_refresh_sd)
             with
             | Raise e =>
                 fst (refresh_sd w) = Raise e
                 /\ api_calls (events_since w (snd (refresh_sd w)))
                    = [CallGetWebAccessToken]
             | Ok url =>
                 exists req : http_request,
                   api_calls (events_since w (snd (refresh_sd w)))
                   = [CallGetWebAccessToken; CallHttpRequest req]
                   /\ req_url req = url
                   /\ req_expected_status_codes req = [202%Z; 200%Z]
                   /\ req_headers req
                      = api__placeholder_to_values_dict
                          (tpl_headers WEB_REQUESTS_refresh_sd)
                          [(PARAM_NAME_ACCESS_TOKEN, token)]
                   /\ req_method req = tpl_method WEB_REQUESTS_refresh_sd
                   /\ req_data req = tpl_data WEB_REQUESTS_refresh_sd
                   /\ req_use_cookies req
                      = tpl_use_cookies WEB_REQUESTS_refresh_sd
                   /\ (forall (e : exn) (a' : C),
                         api__http_request req a = (Raise e, a') ->
                         fst (refresh_sd w) = Raise e)
                   /\ (forall (response : pyval) (a' : C),
                         api__http_request req a = (Ok response, a') ->
                         fst (refresh_sd w)
                         = DeviceRealtimeInfo_from_dict response)
             end
         end
     end.
Proof.
  unfold refresh_sd, call_URL_build. run_m.
  destruct (api__get_web_access_token (api w)) as [[token|e] a]; simpl.
  - destruct URL_build as [build|]; simpl.
    + destruct (build _ _ _ _ _) as [url|e]; simpl.
      * set (req := {| req_url := url;
                       req_headers :=
                         api__placeholder_to_values_dict
                           (tpl_headers WEB_REQUESTS_refresh_sd)
                           [(PARAM_NAME_ACCESS_TOKEN, token)];
                       req_method := tpl_method WEB_REQUESTS_refresh_sd;
                       req_data := tpl_data WEB_REQUESTS_refresh_sd;
                       req_expected_status_codes :=
                         [HTTPStatus_ACCEPTED; HTTPStatus_OK];
                       req_use_cookies :=
                         tpl_use_cookies WEB_REQUESTS_refresh_sd |}).
        destruct (api__http_request req a) as [[response|e] a'] eqn:Hreq;
          simpl; (repeat (split; [reflexivity|])); exists req;
          (rewrite (events_since_app w _
                      [EvApi CallGetWebAccessToken;
                       EvApi (CallHttpRequest req)])
             by (simpl; rewrite <- app_assoc; reflexivity));
          (repeat (split; [reflexivity|])); split;
          intros x a'' Hreq'; congruence.
      * rewrite (events_since_app w _ [EvApi CallGetWebAccessToken])
          by reflexivity.
        repeat split; reflexivity.
    + rewrite (events_since_app w _ [EvApi CallGetWebAccessToken])
        by reflexivity.
      repeat split; reflexivity.
  - rewrite (events_since_app w _ [EvApi CallGetWebAccessToken])
      by reflexivity.
    repeat split; reflexivity.
Qed.

End TelemetryFetch.

(** *** Further properties of the poll *)

Section PollEdges.
Context {C : Type} `{!Client C}.

Lemma notifications_map_EvApi (calls : list api_call) :
  notifications (map EvApi calls) = 0.
Proof. induction calls as [|c calls IH]; simpl; [reflexivity|exact IH]. Qed.

Lemma notifications_logs (tr : list event) :
  forallb is_log tr = true -> notifications tr = 0.
Proof.
  induction tr as [|ev tr IH]; simpl; [reflexivity|].
  intros [Hev Htr]%andb_true_iff. destruct ev; try discriminate Hev; auto.
Qed.

(** X7.  A poll never writes the snapshot or the success flag and never
    notifies the listeners, whether it returns a device or fails: the
    device goes back to the caller, and after a failed poll the stored
    snapshot is still the previous one. *)
Theorem poll_leaves_snapshot (w : world C) :
  data (snd (_async_update_data w)) = data w
  /\ last_update_success (snd (_async_update_data w)) = last_update_success w
  /\ notifications (events_since w (snd (_async_update_data w))) = 0.
Proof.
  split; [|split].
  - pose proof (poll_cases w) as Hc.
    pose proof (fetch_device_spec (poll_started w)) as (a & calls & Hw1 & _).
    destruct (fetch_device (poll_started w)) as [[device|e] w1];
      simpl in Hw1; subst w1.
    + destruct (push_active _).
      * destruct (api_enter_sd _) as [[[]|e] a']; rewrite Hc; reflexivity.
      * rewrite Hc. reflexivity.
    + rewrite Hc. reflexivity.
  - pose proof (poll_cases w) as Hc.
    pose proof (fetch_device_spec (poll_started w)) as (a & calls & Hw1 & _).
    destruct (fetch_device (poll_started w)) as [[device|e] w1];
      simpl in Hw1; subst w1.
    + destruct (push_active _).
      * destruct (api_enter_sd _) as [[[]|e] a']; rewrite Hc; reflexivity.
      * rewrite Hc. reflexivity.
    + rewrite Hc. reflexivity.
  - destruct (poll_events w) as (calls & tail & _ & -> & Htail).
    simpl. rewrite notifications_app, notifications_map_EvApi. simpl.
    destruct (at_push_guard w) as [[device w1]|]; [|subst tail; reflexivity].
    destruct (push_active w1); [|subst tail; reflexivity].
    destruct Htail as (rest & -> & Hlogs). simpl.
    apply notifications_logs. exact Hlogs.
Qed.

(** The calls of the fetch, by whether the client has a device bound. *)
Lemma fetch_device_bound (w : world C) :
  exists (a : C) (calls : list api_call),
    snd (fetch_device w) = with_trace (trace w ++ map EvApi calls) (with_api a w)
    /\ match api_device (api w) with
       | Some _ =>
           calls `prefix_of` [CallGetDeviceInfos; CallGetDeviceInfosParameters]
       | None =>
           exists rest : list api_call,
             calls = CallSetDeviceFromId (_device_id w) :: rest
             /\ rest `prefix_of` [CallGetDeviceInfos;
                                  CallGetDeviceInfosParameters]
       end.
Proof.
  unfold fetch_device. run_m.
  destruct (api_device (api w)) as [dev|] eqn:Hdev; simpl.
  - destruct (api_get_device_infos (api w)) as [[[]|e1] a1] eqn:H1; simpl.
    + destruct (api_get_device_infos_parameters a1) as [[d|e2] a2] eqn:H2; simpl;
        exists a2, [CallGetDeviceInfos; CallGetDeviceInfosParameters];
        rewrite <- app_assoc; split; try reflexivity.
    + exists a1, [CallGetDeviceInfos]. split; [reflexivity|].
      exists [CallGetDeviceInfosParameters]. reflexivity.
  - destruct (api_set_device_from_id (_device_id w) (api w))
      as [[[]|e0] a0] eqn:H0; simpl.
    + destruct (api_get_device_infos a0) as [[[]|e1] a1] eqn:H1; simpl.
      * destruct (api_get_device_infos_parameters a1) as [[d|e2] a2] eqn:H2;
          simpl;
          exists a2, [CallSetDeviceFromId (_device_id w); CallGetDeviceInfos;
                      CallGetDeviceInfosParameters];
          rewrite <- !app_assoc; (split; [reflexivity|]);
          eexists; (split; [reflexivity|]); reflexivity.
      * exists a1, [CallSetDeviceFromId (_device_id w); CallGetDeviceInfos].
        rewrite <- !app_assoc. split; [reflexivity|].
        eexists. split; [reflexivity|].
        exists [CallGetDeviceInfosParameters]. reflexivity.
    + exists a0, [CallSetDeviceFromId (_device_id w)]. split; [reflexivity|].
      eexists. split; [reflexivity|].
      exists [CallGetDeviceInfos; CallGetDeviceInfosParameters]. reflexivity.
Qed.

(** The client calls of one poll: those of the fetch, then [enter_sd] or
    nothing. *)
Lemma poll_api_calls (w : world C) :
  exists (calls extra : list api_call),
    api_calls (events_since w (snd (_async_update_data w))) = calls ++ extra
    /\ (extra = [] \/ extra = [CallEnterSd])
    /\ match api_device (api w) with
       | Some _ =>
           calls `prefix_of` [CallGetDeviceInfos; CallGetDeviceInfosParameters]
       | None =>
           exists rest : list api_call,
             calls = CallSetDeviceFromId (_device_id w) :: rest
             /\ rest `prefix_of` [CallGetDeviceInfos;
                                  CallGetDeviceInfosParameters]
       end.
Proof.
  pose proof (poll_cases w) as Hc.
  pose proof (fetch_device_bound (poll_started w)) as (a & calls & Hw1 & Hcalls).
  simpl in Hcalls.
  assert (Hcount : forall tail : list event,
             api_calls
               (EvLogDebug ("Regularly updated " +:+ name w +:+ " data")
                :: map EvApi calls ++ tail)
             = calls ++ api_calls tail).
  { intros tail. simpl. rewrite api_calls_app, api_calls_map_EvApi.
    reflexivity. }
  destruct (fetch_device (poll_started w)) as [[device|e] w1];
    simpl in Hw1; subst w1; exists calls.
  - destruct (push_active _).
    + destruct (api_enter_sd _) as [[[]|e] a']; rewrite Hc;
        exists [CallEnterSd]; (split; [|split; [right; reflexivity|exact Hcalls]]).
      * rewrite (events_since_app w _
                   (EvLogDebug ("Regularly updated " +:+ name w +:+ " data")
                    :: map EvApi calls
                       ++ [EvApi CallEnterSd;
                           EvLogDebug "=== real time data ===";
                           EvLogDebugDevice (api_device a')])).
        -- apply Hcount.
        -- simpl. rewrite <- !app_assoc. reflexivity.
      * rewrite (events_since_app w _
                   (EvLogDebug ("Regularly updated " +:+ name w +:+ " data")
                    :: map EvApi calls ++ [EvApi CallEnterSd])).
        -- apply Hcount.
        -- simpl. rewrite <- !app_assoc. reflexivity.
    + rewrite Hc. exists []. split; [|split; [left; reflexivity|exact Hcalls]].
      rewrite (events_since_app w _
                 (EvLogDebug ("Regularly updated " +:+ name w +:+ " data")
                  :: map EvApi calls
                     ++ [EvListenOnce (next_handle w);
                         EvBackgroundTask "gruenbeck-cloud-listen" CoListen;
                         EvLogDebug "=== real time data ===";
                         EvLogDebugDevice (api_device a)])).
      * rewrite Hcount. simpl. reflexivity.
      * simpl. rewrite <- !app_assoc. reflexivity.
  - rewrite Hc. exists []. split; [|split; [left; reflexivity|exact Hcalls]].
    rewrite (events_since_app w _
               (EvLogDebug ("Regularly updated " +:+ name w +:+ " data")
                :: map EvApi calls ++ [])).
    + rewrite Hcount. reflexivity.
    + simpl. rewrite app_nil_r, <- !app_assoc. reflexivity.
Qed.

(** X8.  The device is bound on demand and once: a poll that finds the
    client without a device calls [set_device_from_id] with the configured
    id before anything else, and not again; a poll that finds a device
    bound does not call it at all. *)
Theorem poll_binds_device_once (w : world C) :
  match api_device (api w) with
  | None =>
      exists rest : list api_call,
        api_calls (events_since w (snd (_async_update_data w)))
        = CallSetDeviceFromId (_device_id w) :: rest
        /\ forall device_id : string, CallSetDeviceFromId device_id ∉ rest
  | Some _ =>
      forall device_id : string,
        CallSetDeviceFromId device_id
          ∉ api_calls (events_since w (snd (_async_update_data w)))
  end.
Proof.
  destruct (poll_api_calls w) as (calls & extra & -> & Hextra & Hcalls).
  assert (Hclean : forall (rest : list api_call) (device_id : string),
             rest `prefix_of` [CallGetDeviceInfos; CallGetDeviceInfosParameters] ->
             CallSetDeviceFromId device_id ∉ rest ++ extra).
  { intros rest device_id [k Hk] Hin.
    apply elem_of_app in Hin as [Hin|Hin].
    - assert (Hall : CallSetDeviceFromId device_id
                       ∈ [CallGetDeviceInfos; CallGetDeviceInfosParameters]).
      { rewrite Hk. apply elem_of_app. left. exact Hin. }
      repeat (apply elem_of_cons in Hall as [Hall|Hall]; [discriminate Hall|]).
      apply elem_of_nil in Hall. exact Hall.
    - destruct Hextra as [->| ->].
      + apply elem_of_nil in Hin. exact Hin.
      + apply elem_of_cons in Hin as [Hin|Hin]; [discriminate Hin|].
        apply elem_of_nil in Hin. exact Hin. }
  destruct (api_device (api w)) as [dev|].
  - intros device_id. apply Hclean. exact Hcalls.
  - destruct Hcalls as (rest & -> & Hrest).
    exists (rest ++ extra). split; [reflexivity|].
    intros device_id. apply Hclean. exact Hrest.
Qed.

(** The classes listed after [Exception] in the clause of the poll are
    subclasses of it: the clause catches exactly the instances of
    [Exception]. *)
Lemma poll_clause_is_Exception (e : exn) :
  matches [Exception; IndexError; KeyError;
           PyGruenbeckCloudResponseStatusError] e
  = isinstance e Exception.
Proof. destruct e as [c m k]. destruct c; reflexivity. Qed.

(** X9.  The only [Exception] a poll lets out is [UpdateFailed]: what a
    poll raises is either an [UpdateFailed] chained to an [Exception] of the
    body, whose message it repeats after "Unable to get data from API: ",
    or it is no [Exception] at all (a cancellation, say), passed on as it
    is. *)
Theorem poll_raises_only_update_failed (w : world C) (err : exn) :
  fst (_async_update_data w) = Raise err ->
  (exn_cls err = UpdateFailed
   /\ exists e : exn,
        exn_cause err = Some e
        /\ isinstance e Exception = true
        /\ str err = "Unable to get data from API: " +:+ str e)
  \/ isinstance err Exception = false.
Proof.
  intros Hraise.
  assert (Hsome : exists e : exn, err = update_failed e).
  { pose proof (poll_cases w) as Hc.
    destruct (fetch_device (poll_started w)) as [[device|e] w1].
    - destruct (push_active w1).
      + destruct (api_enter_sd (api w1)) as [[[]|e] a'];
          rewrite Hc in Hraise; simpl in Hraise;
          [discriminate Hraise|].
        injection Hraise as <-. exists e. reflexivity.
      + rewrite Hc in Hraise. discriminate Hraise.
    - rewrite Hc in Hraise. injection Hraise as <-. exists e. reflexivity. }
  destruct Hsome as (e & ->). unfold update_failed.
  rewrite poll_clause_is_Exception.
  destruct (isinstance e Exception) eqn:He.
  - left. split; [reflexivity|]. exists e. auto.
  - right. exact He.
Qed.

End PollEdges.

(** *** The push task and the polls around it *)

Section LifeCycle.
Context {C : Type} `{!Client C}.

(** A poll entered with a handle present changes neither the handle, nor
    the bus, nor the tasks. *)
Lemma poll_with_handle (w : world C) (h : handle) :
  unsub w = Some h ->
  unsub (snd (_async_update_data w)) = Some h
  /\ stop_listeners (snd (_async_update_data w)) = stop_listeners w
  /\ background_tasks (snd (_async_update_data w)) = background_tasks w.
Proof.
  intros Hh.
  destruct (poll_registers_or_not w)
    as [(d & w1 & _ & Hp & Hu & _)|(_ & Hs & Hb & Hu)].
  - apply push_active_false in Hp as [_ Hnone].
    rewrite Hu, Hh in Hnone. discriminate Hnone.
  - rewrite Hs, Hb, Hu. auto.
Qed.

(** X12.  Push mode is set up again by the poll that follows the end of the
    listen task: when the listen call has returned or failed with a vendor
    error and the disconnect has returned, the handle is gone, and the next
    poll whose guard finds the client not connected registers a new
    shutdown listener and creates a new listen task; if the bus held only
    the handle's listener before, the new listener is then the only one. *)
Theorem push_setup_restarts_after_listen (w : world C) (a1 : C)
    (pushed : list Device) (r : result unit) (a2 a3 : C)
    (device : Device) (w1 : world C) :
  api_connect (api w) = (Ok tt, a1) ->
  api_listen a1 = (pushed, r, a2) ->
  (forall e : exn, r = Raise e -> isinstance e PyGruenbeckCloudError = true) ->
  api_disconnect a2 = (Ok tt, a3) ->
  at_push_guard (snd (listen w)) = Some (device, w1) ->
  api_connected (api w1) = false ->
  unsub (snd (_async_update_data (snd (listen w))))
  = Some (next_handle (snd (listen w)))
  /\ stop_listeners (snd (_async_update_data (snd (listen w))))
     = stop_listeners (snd (listen w)) ++ [next_handle (snd (listen w))]
  /\ background_tasks (snd (_async_update_data (snd (listen w))))
     = background_tasks (snd (listen w)) ++ [("gruenbeck-cloud-listen", CoListen)]
  /\ (registration_matches_handle w ->
      stop_listeners (snd (_async_update_data (snd (listen w))))
      = [next_handle (snd (listen w))]).
Proof.
  intros Hconn Hlisten Hvendor Hdis Hg Hoff.
  assert (Hgone : unsub (snd (listen w)) = None
                  /\ stop_listeners (snd (listen w))
                     = match unsub w with
                       | Some h => filter (fun h' => h' ≠ h) (stop_listeners w)
                       | None => stop_listeners w
                       end).
  { destruct (listen_reaches_exit _ _ _ _ _ Hconn Hlisten Hvendor)
      as (w2 & mid & -> & Ha2 & Hu2 & Hs2 & _).
    destruct (listen_exit_spec w2) as (tail & _ & _ & _ & _ & Hres).
    rewrite Ha2, Hdis in Hres. simpl in Hres.
    destruct Hres as (_ & Hnone & Hstop).
    rewrite Hnone, Hstop, Hu2, Hs2. auto. }
  destruct Hgone as [Hnone Hbus].
  destruct (poll_registers_or_not (snd (listen w)))
    as [(d & w1' & _ & _ & _ & Hs & Hb & Hu)|(Hact & _)].
  - split; [exact Hu|]. split; [exact Hs|]. split; [exact Hb|].
    intros Hinv. rewrite Hs, Hbus. unfold registration_matches_handle in Hinv.
    rewrite Hinv. destruct (unsub w) as [h|]; [|reflexivity].
    rewrite filter_other_than. reflexivity.
  - exfalso. destruct (Hact _ _ Hg) as [Hactive Hu1].
    unfold push_active in Hactive.
    rewrite Hoff, Hu1, Hnone in Hactive. discriminate Hactive.
Qed.

(** X13.  When the disconnect at the end of the listen task raises, the
    task ends with that exception and the handle stays; from then on no
    number of polls sets push mode up again: each finds the handle and
    leaves handle, bus and tasks as they are. *)
Theorem push_setup_blocked_by_stale_handle (w : world C) (a1 : C)
    (pushed : list Device) (r : result unit) (a2 a3 : C) (e' : exn)
    (h : handle) (n : nat) :
  api_connect (api w) = (Ok tt, a1) ->
  api_listen a1 = (pushed, r, a2) ->
  (forall e : exn, r = Raise e -> isinstance e PyGruenbeckCloudError = true) ->
  api_disconnect a2 = (Raise e', a3) ->
  unsub w = Some h ->
  fst (listen w) = Raise e'
  /\ unsub (run_ops (replicate n OpPoll) (snd (listen w))) = Some h
  /\ stop_listeners (run_ops (replicate n OpPoll) (snd (listen w)))
     = stop_listeners w
  /\ background_tasks (run_ops (replicate n OpPoll) (snd (listen w)))
     = background_tasks (snd (listen w)).
Proof.
  intros Hconn Hlisten Hvendor Hdis Hh.
  assert (Hstay : fst (listen w) = Raise e'
                  /\ unsub (snd (listen w)) = Some h
                  /\ stop_listeners (snd (listen w)) = stop_listeners w).
  { destruct (listen_reaches_exit _ _ _ _ _ Hconn Hlisten Hvendor)
      as (w2 & mid & -> & Ha2 & Hu2 & Hs2 & _).
    destruct (listen_exit_spec w2) as (tail & _ & _ & _ & _ & Hres).
    rewrite Ha2, Hdis in Hres. simpl in Hres.
    destruct Hres as (Hraise & Hsame & Hstop).
    rewrite Hraise, Hsame, Hstop, Hu2, Hs2, Hh. auto. }
  destruct Hstay as (Hraise & Hu & Hs).
  split; [exact Hraise|].
  rewrite <- Hs. revert Hu. generalize (snd (listen w)). clear.
  induction n as [|n IH]; intros w0 Hu; simpl; [auto|].
  destruct (poll_with_handle w0 h Hu) as (Hu' & Hs' & Hb').
  unfold run_ops in *. simpl.
  destruct (IH _ Hu') as (IHu & IHs & IHb).
  rewrite IHu, IHs, IHb, Hs', Hb'. auto.
Qed.

End LifeCycle.

(** *** The properties on the scripted client *)

(** The first poll of a fresh coordinator runs push-setup: one listener,
    one task, the handle stored. *)
Example first_poll_registers :
  stop_listeners polled_once = [0]
  /\ background_tasks polled_once = [("gruenbeck-cloud-listen", CoListen)]
  /\ unsub polled_once = Some 0
  /\ fst (_async_update_data (init_world quiet_client)) = Ok sample_device.
Proof. vm_compute. auto. Qed.

(** The second poll finds the handle and registers nothing; the device it
    returns carries the coroutine object. *)
Example second_poll_keeps_registration :
  stop_listeners (snd (_async_update_data polled_once)) = [0]
  /\ background_tasks (snd (_async_update_data polled_once))
     = [("gruenbeck-cloud-listen", CoListen)]
  /\ fst (_async_update_data polled_once)
     = Ok (set_realtime (Some (RtAwaitable CoRefreshSd)) sample_device).
Proof. vm_compute. auto. Qed.

(** A cancellation is not an [Exception]: the clause of the poll lets it
    through. *)
Example cancellation_is_not_wrapped :
  update_failed (Exn CancelledError "" None) = Exn CancelledError "" None.
Proof. reflexivity. Qed.

(** The handle is dropped after the awaited disconnect: a disconnect that
    raises ends the task there, with the handle still in place. *)
Example handle_stays_when_disconnect_raises :
  fst (listen (snd (_async_update_data (init_world failing_disconnect_client))))
  = Raise (vendor_error PyGruenbeckCloudError "close failed")
  /\ unsub (snd (listen (snd (_async_update_data
                               (init_world failing_disconnect_client)))))
     = Some 0.
Proof. vm_compute. auto. Qed.

(** With a [URL] class that has no [build], the telemetry fetch gets its
    token and then raises, without sending anything; with one that builds
    the URL it sends its one request. *)
Example refresh_sd_without_build :
  fst (refresh_sd (U := plain_url) (init_world quiet_client))
  = Raise (Exn AttributeError
             "type object 'URL' has no attribute 'build'" None)
  /\ api_calls
       (events_since (init_world quiet_client)
          (snd (refresh_sd (U := plain_url) (init_world quiet_client))))
     = [CallGetWebAccessToken].
Proof. vm_compute. auto. Qed.

Example refresh_sd_with_build :
  fst (refresh_sd (U := building_url) (init_world quiet_client))
  = Ok {| realtime_fields := [] |}
  /\ length
       (api_calls
          (events_since (init_world quiet_client)
             (snd (refresh_sd (U := building_url) (init_world quiet_client)))))
     = 2.
Proof. vm_compute. auto. Qed.

(** The listen call returns normally, the disconnect is called and raises:
    the task ends, with that exception, and the handle is still there. *)
Lemma listen_exit_handle_not_cleared :
  api_connect
    (api (snd (_async_update_data (init_world failing_disconnect_client))))
  = (Ok tt, s_with_connected true failing_disconnect_client)
  /\ api_listen (s_with_connected true failing_disconnect_client)
     = ([], Ok tt, s_with_connected true failing_disconnect_client)
  /\ EvApi CallDisconnect
       ∈ events_since
           (snd (_async_update_data (init_world failing_disconnect_client)))
           (snd (listen (snd (_async_update_data
                                (init_world failing_disconnect_client)))))
  /\ fst (listen (snd (_async_update_data
                         (init_world failing_disconnect_client))))
     = Raise (vendor_error PyGruenbeckCloudError "close failed")
  /\ unsub (snd (listen (snd (_async_update_data
                               (init_world failing_disconnect_client)))))
     = Some 0.
Proof.
  vm_compute. repeat split; try reflexivity.
  repeat constructor.
Qed.

Lemma measurements_response_witness :
  fetch_series_of Salt (api (init_world quiet_client))
  = (Ok sample_device, quiet_client)
  /\ exists items : list pyval,
       fst (service_of Salt {| call_data := ∅ |} (init_world quiet_client))
       = Ok (PDict [(PStr "entries", PList items)])
       /\ length items = 3
       /\ response_entries (PDict [(PStr "entries", PList items)])
          = Some [Some ("2024-05-01", 12%Z); Some ("2024-05-02", 0%Z);
                  Some ("2024-05-03", 7%Z)].
Proof.
  split; [reflexivity|].
  exact (measurements_response Salt {| call_data := ∅ |}
           (init_world quiet_client) sample_device quiet_client eq_refl).
Defined.

Lemma change_setting_is_update_parameters_witness :
  call_data (change_call "pbuzzer" (PInt 1)) !! SERVICE_PARAM_PARAMETER
  = Some (PStr "pbuzzer")
  /\ service_change_settings (change_call "pbuzzer" (PInt 1))
       (init_world quiet_client)
     = update_device_infos_parameters [(PStr "pbuzzer", PInt 1)]
         (init_world quiet_client).
Proof.
  split; [reflexivity|].
  apply change_setting_is_update_parameters; reflexivity.
Defined.

Lemma update_parameters_wraps_invalid_parameter_witness :
  exists err : exn,
    fst (update_device_infos_parameters [(PStr "pbuzzer", PInt 7)]
           (init_world invalid_parameter_client))
    = Raise err
    /\ exn_cls err = HomeAssistantError
    /\ str err = "Unable to update parameter pbuzzer"
    /\ contains (str err) "Unable to update parameter pbuzzer"
    /\ exn_cause err
       = Some (vendor_error PyGruenbeckCloudUpdateParameterError
                 "Unable to update parameter pbuzzer").
Proof.
  apply (update_parameters_wraps_invalid_parameter
           [(PStr "pbuzzer", PInt 7)] (init_world invalid_parameter_client)
           (vendor_error PyGruenbeckCloudUpdateParameterError
              "Unable to update parameter pbuzzer")
           invalid_parameter_client);
    reflexivity.
Defined.

Lemma update_parameters_atomic_witness :
  data (snd (update_device_infos_parameters [(PStr "pbuzzer", PInt 7)]
               polled_once_bad_status))
  = data polled_once_bad_status
  /\ fst (update_device_infos_parameters [(PStr "pbuzzer", PInt 7)]
            polled_once_bad_status)
     = Raise (vendor_error PyGruenbeckCloudResponseStatusError
                "Response status error").
Proof.
  assert (Hraise : api_update_device_infos_parameters
                     [(PStr "pbuzzer", PInt 7)] (api polled_once_bad_status)
                   = (Raise (vendor_error PyGruenbeckCloudResponseStatusError
                               "Response status error"),
                      bad_status_client)) by reflexivity.
  destruct (update_parameters_atomic _ _ _ _ Hraise)
    as (Hdata & _ & Hother & _).
  split; [exact Hdata|]. apply Hother. reflexivity.
Defined.

Lemma poll_failure_is_update_failed_witness :
  exists err : exn,
    _async_update_data (init_world missing_key_client)
    = (Raise err,
       snd (poll_body (poll_started (init_world missing_key_client))))
    /\ exn_cls err = UpdateFailed
    /\ str err = "Unable to get data from API: 'softener'"
    /\ contains (str err) "'softener'"
    /\ exn_cause err = Some (Exn KeyError "'softener'" None)
    /\ NoDup (api_calls
                (events_since (init_world missing_key_client)
                   (snd (poll_body
                           (poll_started (init_world missing_key_client)))))).
Proof.
  apply (poll_failure_is_update_failed (init_world missing_key_client)
           (Exn KeyError "'softener'" None));
    reflexivity.
Defined.


Lemma listen_termination_flags_witness :
  generic_vendor_error (vendor_error PyGruenbeckCloudError "socket gone") = true
  /\ last_update_success (snd (listen (init_world dropping_client))) = false
  /\ notifications
       (events_since (init_world dropping_client)
          (snd (listen (init_world dropping_client))))
     = 2.
Proof.
  assert (Hgen : generic_vendor_error
                   (vendor_error PyGruenbeckCloudError "socket gone") = true)
    by reflexivity.
  assert (Hconn : api_connect (api (init_world dropping_client))
                  = (Ok tt, s_with_connected true dropping_client))
    by reflexivity.
  assert (Hlisten : api_listen (s_with_connected true dropping_client)
                    = ([pushed_device],
                       Raise (vendor_error PyGruenbeckCloudError "socket gone"),
                       s_with_connected true dropping_client))
    by reflexivity.
  split; [exact Hgen|].
  destruct (listen_termination_flags _ _ _ _ _ Hconn Hlisten) as [Hgeneric _].
  exact (Hgeneric Hgen).
Defined.

Lemma listen_exit_disconnects_witness :
  unsub polled_once = Some 0
  /\ EvApi CallDisconnect ∈ events_since polled_once (snd (listen polled_once))
  /\ fst (listen polled_once) = Ok tt
  /\ unsub (snd (listen polled_once)) = None
  /\ 0 ∉ stop_listeners (snd (listen polled_once)).
Proof.
  assert (Hunsub : unsub polled_once = Some 0) by reflexivity.
  assert (Hconn : api_connect (api polled_once)
                  = (Ok tt, snd (api_connect (api polled_once))))
    by reflexivity.
  assert (Hlisten : api_listen (snd (api_connect (api polled_once)))
                    = ([], Ok tt, snd (api_connect (api polled_once))))
    by reflexivity.
  assert (Hdis : api_disconnect (snd (api_connect (api polled_once)))
                 = (Ok tt,
                    snd (api_disconnect (snd (api_connect (api polled_once))))))
    by reflexivity.
  split; [exact Hunsub|].
  destruct (listen_exit_disconnects _ _ _ _ _ Hconn Hlisten)
    as [Hcalled Hcleared].
  { intros e He. discriminate He. }
  split; [exact Hcalled|].
  destruct (Hcleared _ Hdis) as (Hok & Hnone & _ & Hgone).
  split; [exact Hok|]. split; [exact Hnone|].
  apply Hgone. exact Hunsub.
Defined.

Lemma shutdown_clears_and_disconnects_witness :
  stop_listeners polled_once = [0]
  /\ unsub polled_once = Some 0
  /\ unsub (fire_homeassistant_stop polled_once) = None
  /\ EvApi CallDisconnect
       ∈ events_since polled_once (fire_homeassistant_stop polled_once)
  /\ stop_listeners (fire_homeassistant_stop polled_once) = [].
Proof.
  assert (Hbus : stop_listeners polled_once = [0]) by reflexivity.
  split; [exact Hbus|]. split; [reflexivity|].
  destruct (shutdown_clears_and_disconnects polled_once 0)
    as (Hnone & Hcalled & Hgone & _).
  { rewrite Hbus. apply list_elem_of_here. }
  split; [exact Hnone|]. split; [exact Hcalled|]. exact Hgone.
Defined.

Lemma listen_connect_failure_witness :
  unsub (snd (_async_update_data (init_world refused_client))) = Some 0
  /\ fst (listen (snd (_async_update_data (init_world refused_client))))
     = Ok tt
  /\ unsub (snd (listen (snd (_async_update_data (init_world refused_client)))))
     = None
  /\ events_since (snd (_async_update_data (init_world refused_client)))
       (snd (listen (snd (_async_update_data (init_world refused_client)))))
     = [EvApi CallConnect; EvLogError "connection refused"; EvUnsubCalled 0].
Proof.
  assert (Hconn : api_connect
                    (api (snd (_async_update_data (init_world refused_client))))
                  = (Raise (vendor_error PyGruenbeckCloudError
                              "connection refused"),
                     refused_client)) by reflexivity.
  assert (Hvendor : isinstance
                      (vendor_error PyGruenbeckCloudError "connection refused")
                      PyGruenbeckCloudError = true) by reflexivity.
  destruct (listen_connect_failure _ _ _ Hconn Hvendor)
    as (Hok & Hnone & _ & Hevents).
  split; [reflexivity|]. split; [exact Hok|]. split; [exact Hnone|].
  exact Hevents.
Defined.

Lemma listen_foreign_error_escapes_witness :
  fst (listen (init_world crashing_client))
  = Raise (Exn RuntimeError "Session is closed" None)
  /\ (EvApi CallDisconnect
        ∉ events_since (init_world crashing_client)
            (snd (listen (init_world crashing_client))))
  /\ unsub (snd (listen (init_world crashing_client)))
     = unsub (init_world crashing_client).
Proof.
  assert (Hconn : api_connect (api (init_world crashing_client))
                  = (Ok tt, s_with_connected true crashing_client))
    by reflexivity.
  assert (Hlisten : api_listen (s_with_connected true crashing_client)
                    = ([sample_device; pushed_device],
                       Raise (Exn RuntimeError "Session is closed" None),
                       s_with_connected true crashing_client))
    by reflexivity.
  destruct (listen_foreign_error_escapes (init_world crashing_client)
              (Exn RuntimeError "Session is closed" None)
              (s_with_connected true crashing_client))
    as (Hraise & Hnodisc & _ & Hunsub & _).
  { right. split; [exact Hconn|]. eexists _, _. exact Hlisten. }
  { reflexivity. }
  split; [exact Hraise|]. split; [exact Hnodisc|]. exact Hunsub.
Defined.


Lemma update_parameters_replaces_silently_witness :
  data (snd (update_device_infos_parameters [(PStr "pbuzzer", PInt 1)]
               (init_world quiet_client)))
  = Some pushed_device
  /\ notifications
       (events_since (init_world quiet_client)
          (snd (update_device_infos_parameters [(PStr "pbuzzer", PInt 1)]
                  (init_world quiet_client))))
     = 0.
Proof.
  assert (Hcall : api_update_device_infos_parameters
                    [(PStr "pbuzzer", PInt 1)] (api (init_world quiet_client))
                  = (Ok pushed_device, quiet_client)) by reflexivity.
  destruct (update_parameters_replaces_silently _ _ _ _ Hcall)
    as (_ & Hdata & _ & Hquiet & _).
  split; [exact Hdata|exact Hquiet].
Defined.

Lemma change_settings_missing_key_witness :
  call_data call_without_value !! SERVICE_PARAM_VALUE = None
  /\ exists key : string,
       service_change_settings call_without_value (init_world quiet_client)
       = (Raise (Exn KeyError ("'" +:+ key +:+ "'") None),
          init_world quiet_client)
       /\ call_data call_without_value !! key = None
       /\ (key = SERVICE_PARAM_PARAMETER
           \/ (key = SERVICE_PARAM_VALUE
               /\ is_Some (call_data call_without_value
                             !! SERVICE_PARAM_PARAMETER))).
Proof.
  assert (Hmissing : call_data call_without_value !! SERVICE_PARAM_VALUE = None)
    by reflexivity.
  split; [exact Hmissing|].
  apply change_settings_missing_key. right. exact Hmissing.
Defined.

Lemma poll_raises_only_update_failed_witness :
  (exn_cls (Exn UpdateFailed "Unable to get data from API: 'softener'"
              (Some (Exn KeyError "'softener'" None)))
   = UpdateFailed
   /\ exists e : exn,
        exn_cause (Exn UpdateFailed "Unable to get data from API: 'softener'"
                     (Some (Exn KeyError "'softener'" None)))
        = Some e
        /\ isinstance e Exception = true
        /\ str (Exn UpdateFailed "Unable to get data from API: 'softener'"
                  (Some (Exn KeyError "'softener'" None)))
           = "Unable to get data from API: " +:+ str e)
  \/ isinstance (Exn UpdateFailed "Unable to get data from API: 'softener'"
                   (Some (Exn KeyError "'softener'" None)))
       Exception = false.
Proof.
  apply (poll_raises_only_update_failed (init_world missing_key_client)).
  reflexivity.
Defined.

Lemma push_setup_restarts_after_listen_witness :
  unsub (snd (listen polled_once)) = None
  /\ unsub (snd (_async_update_data (snd (listen polled_once)))) = Some 1
  /\ stop_listeners (snd (_async_update_data (snd (listen polled_once)))) = [1]
  /\ background_tasks (snd (_async_update_data (snd (listen polled_once))))
     = [("gruenbeck-cloud-listen", CoListen);
        ("gruenbeck-cloud-listen", CoListen)].
Proof.
  assert (Hconn : api_connect (api polled_once)
                  = (Ok tt, snd (api_connect (api polled_once))))
    by (vm_compute; reflexivity).
  assert (Hlisten : api_listen (snd (api_connect (api polled_once)))
                    = ([], Ok tt, snd (api_connect (api polled_once))))
    by (vm_compute; reflexivity).
  assert (Hdis : api_disconnect (snd (api_connect (api polled_once)))
                 = (Ok tt,
                    snd (api_disconnect (snd (api_connect (api polled_once))))))
    by (vm_compute; reflexivity).
  assert (Hguard : at_push_guard (snd (listen polled_once))
                   = Some (sample_device,
                           snd (fetch_device
                                  (poll_started (snd (listen polled_once))))))
    by (vm_compute; reflexivity).
  assert (Hoff : api_connected
                   (api (snd (fetch_device
                                (poll_started (snd (listen polled_once))))))
                 = false) by (vm_compute; reflexivity).
  assert (Hinv : registration_matches_handle polled_once) by (vm_compute; reflexivity).
  destruct (push_setup_restarts_after_listen _ _ _ _ _ _ _ _
              Hconn Hlisten
              (fun e (He : Ok tt = Raise e) =>
                 False_ind _ (eq_ind (Ok tt)
                                (fun r => match r with
                                          | Ok _ => True
                                          | Raise _ => False
                                          end) I _ He))
              Hdis Hguard Hoff)
    as (Hunsub & _ & Htasks & Hbus).
  split; [vm_compute; reflexivity|].
  split; [etrans; [exact Hunsub|vm_compute; reflexivity]|].
  split; [etrans; [exact (Hbus Hinv)|vm_compute; reflexivity]|].
  etrans; [exact Htasks|vm_compute; reflexivity].
Defined.

Lemma push_setup_blocked_by_stale_handle_witness :
  unsub (snd (_async_update_data (init_world failing_disconnect_client)))
  = Some 0
  /\ fst (listen (snd (_async_update_data
                         (init_world failing_disconnect_client))))
     = Raise (vendor_error PyGruenbeckCloudError "close failed")
  /\ unsub (run_ops (replicate 3 OpPoll)
              (snd (listen (snd (_async_update_data
                                   (init_world failing_disconnect_client))))))
     = Some 0
  /\ stop_listeners
       (run_ops (replicate 3 OpPoll)
          (snd (listen (snd (_async_update_data
                               (init_world failing_disconnect_client))))))
     = [0].
Proof.
  assert (Hh : unsub (snd (_async_update_data
                             (init_world failing_disconnect_client)))
               = Some 0) by (vm_compute; reflexivity).
  assert (Hconn : api_connect
                    (api (snd (_async_update_data
                                 (init_world failing_disconnect_client))))
                  = (Ok tt, s_with_connected true failing_disconnect_client))
    by (vm_compute; reflexivity).
  assert (Hlisten : api_listen
                      (s_with_connected true failing_disconnect_client)
                    = ([], Ok tt,
                       s_with_connected true failing_disconnect_client))
    by (vm_compute; reflexivity).
  assert (Hdis : api_disconnect
                   (s_with_connected true failing_disconnect_client)
                 = (Raise (vendor_error PyGruenbeckCloudError "close failed"),
                    s_with_connected false failing_disconnect_client))
    by (vm_compute; reflexivity).
  destruct (push_setup_blocked_by_stale_handle _ _ _ _ _ _ _ _ 3
              Hconn Hlisten
              (fun e (He : Ok tt = Raise e) =>
                 False_ind _ (eq_ind (Ok tt)
                                (fun r => match r with
                                          | Ok _ => True
                                          | Raise _ => False
                                          end) I _ He))
              Hdis Hh)
    as (Hraise & Hunsub & Hbus & _).
  split; [exact Hh|]. split; [exact Hraise|]. split; [exact Hunsub|].
  etrans; [exact Hbus|vm_compute; reflexivity].
Defined.
